(** * Keystone POS: the sale transaction engine of [main.py]

    A shallow embedding of [create_sale], [ensure_default_taxes],
    [list_taxes] and [create_product] of [src/main.py] over the schemas of
    [src/schemas.py], and the properties of the sale engine proved on it.

    Python's [float] is IEEE 754 binary64; it is modelled by [spec_float]
    with precision 53 and maximal exponent 1024, so additions and
    multiplications round exactly as the interpreter's do. *)

From Stdlib Require Import ZArith List Bool Lia QArith Qabs.
From Stdlib Require Import Floats.SpecFloat.
From stdpp Require Import gmap strings.

Local Open Scope Z_scope.

(** ** Python floats *)

Module Float.

Definition float : Type := spec_float.

Definition prec : Z := 53.
Definition emax : Z := 1024.

Definition add : float -> float -> float := SFadd prec emax.
Definition mul : float -> float -> float := SFmul prec emax.
Definition div : float -> float -> float := SFdiv prec emax.
Definition neg : float -> float := SFopp.
Definition ltb : float -> float -> bool := SFltb.
Definition leb : float -> float -> bool := SFleb.

(** [float(n)] for an integer [n]. *)
Definition of_Z (n : Z) : float := binary_normalize prec emax n 0 false.

(** The literal written [n/d] in decimal, e.g. [0.07] is [lit 7 100]:
    the double nearest to the fraction. *)
Definition lit (n : Z) (d : positive) : float := div (of_Z n) (of_Z (Zpos d)).

Definition zero : float := S754_zero false.

(** Quotient of [n] by [d], the tie going to the even neighbour. *)
Definition round_half_even_div (n d : Z) : Z :=
  let (q, r) := Z.div_eucl n d in
  match 2 * r ?= d with
  | Lt => q
  | Gt => q + 1
  | Eq => if Z.even q then q else q + 1
  end.

(** The builtin [round(x, 3)]: infinities, NaN and zeros are returned as
    they are; a finite [x] is printed with three digits after the point,
    correctly rounded from its exact binary value (ties to even), and the
    decimal string is read back as the nearest double, the sign kept. *)
Definition round3 (x : float) : float :=
  match x with
  | S754_finite s m e =>
      let q := if 0 <=? e then Zpos m * 2 ^ e * 1000
               else round_half_even_div (Zpos m * 1000) (2 ^ (- e)) in
      match q with
      | Zpos qp => SFdiv prec emax (S754_finite s qp 0) (S754_finite false 1000 0)
      | _ => S754_zero s
      end
  | _ => x
  end.

Definition is_finite (x : float) : bool :=
  match x with
  | S754_zero _ | S754_finite _ _ _ => true
  | _ => false
  end.

(** The exact value of a finite float, as a rational. *)
Definition to_Q (x : float) : Q :=
  match x with
  | S754_finite s m e =>
      let v := if 0 <=? e then inject_Z (Zpos m * 2 ^ e)
               else Qmake (Zpos m) (Z.to_pos (2 ^ (- e))) in
      if s then Qopp v else v
  | _ => 0%Q
  end.

End Float.

Abbreviation float := Float.float.

(** ** schemas.py *)

Module TaxRate.
Record t : Type := mk {
  name : string;
  rate : float;
  code : string;
  is_default : bool
}.
End TaxRate.

Module Product.
Record t : Type := mk {
  sku : string;
  name : string;
  price : float;
  stock : float;
  unit : string;
  tax_code : option string;
  barcode : option string;
  category : option string;
  is_active : bool
}.

(** The update document [{"$inc": {"stock": delta}}] applied to a product. *)
Definition inc_stock (delta : float) (p : t) : t :=
  mk (sku p) (name p) (price p) (Float.add (stock p) delta) (unit p)
     (tax_code p) (barcode p) (category p) (is_active p).
End Product.

Module SaleItem.
Record t : Type := mk {
  sku : string;
  name : string;
  qty : float;
  unit_price : float;
  tax_code : option string
}.

(** The field constraints [qty > 0] and [unit_price >= 0]. *)
Definition valid (i : t) : bool :=
  Float.ltb Float.zero (qty i) && Float.leb Float.zero (unit_price i).
End SaleItem.

Module Payment.
Inductive method_t : Type := cash | card | mixed.

Record t : Type := mk {
  method : method_t;
  paid : float;
  change : float
}.

Definition valid (p : t) : bool := Float.leb Float.zero (paid p).
End Payment.

(** A Python [dict] with string keys keeps its keys in insertion order. *)
Definition dict (V : Type) : Type := list (string * V).

Fixpoint dict_get {V : Type} (d : dict V) (k : string) (default : V) : V :=
  match d with
  | [] => default
  | (k', v) :: d' => if String.eqb k' k then v else dict_get d' k default
  end.

Fixpoint dict_lookup {V : Type} (d : dict V) (k : string) : option V :=
  match d with
  | [] => None
  | (k', v) :: d' => if String.eqb k' k then Some v else dict_lookup d' k
  end.

(** [d[k] = v]: the value of an existing key is replaced where it stands, a
    new key goes last. *)
Fixpoint dict_set {V : Type} (d : dict V) (k : string) (v : V) : dict V :=
  match d with
  | [] => [(k, v)]
  | (k', v') :: d' =>
      if String.eqb k' k then (k', v) :: d' else (k', v') :: dict_set d' k v
  end.

Definition dict_keys {V : Type} (d : dict V) : list string := map fst d.
Definition dict_values {V : Type} (d : dict V) : list V := map snd d.

Module Sale.
Record t : Type := mk {
  items : list SaleItem.t;
  customer_name : option string;
  subtotal : float;
  tax_total : float;
  total : float;
  tax_breakdown : option (dict float);
  payment : Payment.t;
  user : option string;
  timestamp : option Z
}.

Definition valid (s : t) : bool :=
  forallb SaleItem.valid (items s) && Payment.valid (payment s).
End Sale.

(** ** The document store *)

(** A stored document: the identifier the store gave it, and its fields. *)
Record Doc (A : Type) : Type := mkDoc { _id : nat; body : A }.
Arguments mkDoc {A} _ _.
Arguments _id {A} _.
Arguments body {A} _.

(** The collections [db["product"]], [db["taxrate"]] and [db["sale"]], each
    in insertion order, and the next free identifier. *)
Record DB : Type := mkDB {
  product : list (Doc Product.t);
  taxrate : list (Doc TaxRate.t);
  sale : list (Doc Sale.t);
  next_id : nat
}.

Definition empty_db : DB := mkDB [] [] [] 0.

Record HTTPException : Type := mkHTTPException {
  status_code : Z;
  detail : string
}.

Inductive result (A : Type) : Type :=
| Ok (a : A)
| Raise (e : HTTPException).
Arguments Ok {A} a.
Arguments Raise {A} e.

(** A handler runs on the store and either returns or raises; the store it
    leaves is kept in both cases, since nothing undoes the writes made
    before an exception. *)
Definition M (A : Type) : Type := DB -> result A * DB.

Definition ret {A : Type} (a : A) : M A := fun db => (Ok a, db).

Definition raise {A : Type} (e : HTTPException) : M A := fun db => (Raise e, db).

Definition bind {A B : Type} (m : M A) (k : A -> M B) : M B :=
  fun db =>
    match m db with
    | (Ok a, db') => k a db'
    | (Raise e, db') => (Raise e, db')
    end.

Notation "'do' x <- m ; k" := (bind m (fun x => k))
  (at level 10, x name, m at level 100, k at level 200).
Notation "'exec' m ; k" := (bind m (fun _ => k))
  (at level 10, m at level 100, k at level 200).

(** Modelled from the spec: [get_documents("taxrate")] of the absent
    [database] module, the store's "list" capability
    ([listTaxRates() -> sequence<TaxRate>]): the documents of the
    collection, in insertion order. *)
Definition get_documents_taxrate : M (list TaxRate.t) :=
  fun db => (Ok (map body (taxrate db)), db).

(** Modelled from the spec: [get_documents("product")] of the absent
    [database] module, as for the tax rates. *)
Definition get_documents_product : M (list Product.t) :=
  fun db => (Ok (map body (product db)), db).

(** Modelled from the spec: [get_documents("sale")] of the absent
    [database] module, as for the tax rates. *)
Definition get_documents_sale : M (list Sale.t) :=
  fun db => (Ok (map body (sale db)), db).

(** Modelled from the spec: [create_document("taxrate", d)] of the absent
    [database] module, the store's "insert" capability: the document is
    appended to the collection under a fresh identifier. *)
Definition create_document_taxrate (d : TaxRate.t) : M unit :=
  fun db =>
    (Ok tt, mkDB (product db) (taxrate db ++ [mkDoc (next_id db) d]) (sale db)
                 (S (next_id db))).

(** Modelled from the spec: [create_document("product", d)] of the absent
    [database] module, as for the tax rates. *)
Definition create_document_product (d : Product.t) : M unit :=
  fun db =>
    (Ok tt, mkDB (product db ++ [mkDoc (next_id db) d]) (taxrate db) (sale db)
                 (S (next_id db))).

(** Modelled from the spec: [create_document("sale", d)] of the absent
    [database] module ([insertSale(SaleRecord) -> id]): the record is
    appended to the collection under a fresh identifier. *)
Definition create_document_sale (d : Sale.t) : M unit :=
  fun db =>
    (Ok tt, mkDB (product db) (taxrate db) (sale db ++ [mkDoc (next_id db) d])
                 (S (next_id db))).

(** [db["product"].find_one({"sku": sku})]: the first product document with
    that SKU, or [None]. A document found carries its [_id], so it is never
    the empty dict, and [not prod] holds exactly for [None]. *)
Definition find_one_sku (sku : string) (c : list (Doc Product.t))
  : option (Doc Product.t) :=
  find (fun d => String.eqb (Product.sku (body d)) sku) c.

Definition find_one_product (sku : string) : M (option (Doc Product.t)) :=
  fun db => (Ok (find_one_sku sku (product db)), db).

(** [db["product"].count_documents({"sku": sku})]. *)
Definition count_documents_sku (sku : string) : M nat :=
  fun db =>
    (Ok (length (filter (fun d => String.eqb (Product.sku (body d)) sku)
                        (product db))), db).

(** [update_one({"_id": id}, {"$inc": {"stock": delta}})]: only the first
    document with that identifier is updated. *)
Fixpoint update_one_inc (id : nat) (delta : float) (c : list (Doc Product.t))
  : list (Doc Product.t) :=
  match c with
  | [] => []
  | d :: c' =>
      if Nat.eqb (_id d) id
      then mkDoc (_id d) (Product.inc_stock delta (body d)) :: c'
      else d :: update_one_inc id delta c'
  end.

Definition update_one_product (id : nat) (delta : float) : M unit :=
  fun db =>
    (Ok tt, mkDB (update_one_inc id delta (product db)) (taxrate db) (sale db)
                 (next_id db)).

(** ** main.py *)

(** [{t.get("code"): t for t in docs}]: of two rates with one code the
    later one stays. *)
Definition tax_map (docs : list TaxRate.t) : gmap string TaxRate.t :=
  foldl (fun m t => <[TaxRate.code t := t]> m) ∅ docs.

Definition defaults : list TaxRate.t :=
  [ TaxRate.mk "TVA 7%" (Float.lit 7 100) "TVA7" false;
    TaxRate.mk "TVA 13%" (Float.lit 13 100) "TVA13" false;
    TaxRate.mk "TVA 19%" (Float.lit 19 100) "TVA19" true ].

(** The loop of [ensure_default_taxes]; [existing] is the map built before
    the loop, and [created] the list appended to. *)
Fixpoint ensure_loop (existing : gmap string TaxRate.t) (ds : list TaxRate.t)
    (created : list TaxRate.t) : M (list TaxRate.t) :=
  match ds with
  | [] => ret created
  | d :: ds' =>
      match existing !! TaxRate.code d with
      | None =>
          exec create_document_taxrate d;
          ensure_loop existing ds' (created ++ [d])
      | Some _ => ensure_loop existing ds' created
      end
  end.

Definition ensure_default_taxes : M (list TaxRate.t) :=
  do docs <- get_documents_taxrate;
  ensure_loop (tax_map docs) defaults [].

Definition list_taxes : M (list TaxRate.t) :=
  exec ensure_default_taxes;
  get_documents_taxrate.

Definition create_product (p : Product.t) : M string :=
  do n <- count_documents_sku (Product.sku p);
  if (0 <? n)%nat
  then raise (mkHTTPException 400 "SKU already exists")
  else exec create_document_product p; ret "created"%string.

(** The local variables of [create_sale] that the loop updates. *)
Record locals : Type := mkLocals {
  l_subtotal : float;
  l_tax_total : float;
  l_tax_breakdown : dict float
}.

(** [item.tax_code and item.tax_code in taxes], with the rate document
    found: [None] and the empty string are falsy. *)
Definition taxed (taxes : gmap string TaxRate.t) (item : SaleItem.t)
  : option (string * TaxRate.t) :=
  match SaleItem.tax_code item with
  | Some c => if String.eqb c "" then None
              else match taxes !! c with
                   | Some t => Some (c, t)
                   | None => None
                   end
  | None => None
  end.

(** The totals after one line, the product being found. *)
Definition add_line (taxes : gmap string TaxRate.t) (acc : locals)
    (item : SaleItem.t) : locals :=
  let line_price := Float.mul (SaleItem.qty item) (SaleItem.unit_price item) in
  let subtotal := Float.add (l_subtotal acc) line_price in
  match taxed taxes item with
  | Some (c, t) =>
      let rate := TaxRate.rate t in
      let tax_amount := Float.mul line_price rate in
      mkLocals subtotal (Float.add (l_tax_total acc) tax_amount)
        (dict_set (l_tax_breakdown acc) c
           (Float.add (dict_get (l_tax_breakdown acc) c Float.zero) tax_amount))
  | None => mkLocals subtotal (l_tax_total acc) (l_tax_breakdown acc)
  end.

Definition unknown_sku (item : SaleItem.t) : HTTPException :=
  mkHTTPException 400 (String.append "Unknown SKU: " (SaleItem.sku item)).

(** One iteration of [for item in sale.items]. *)
Definition loop_body (taxes : gmap string TaxRate.t) (acc : locals)
    (item : SaleItem.t) : M locals :=
  do prod <- find_one_product (SaleItem.sku item);
  match prod with
  | None => raise (unknown_sku item)
  | Some prod =>
      let acc' := add_line taxes acc item in
      exec update_one_product (_id prod) (Float.neg (SaleItem.qty item));
      ret acc'
  end.

Fixpoint for_items (taxes : gmap string TaxRate.t) (items : list SaleItem.t)
    (acc : locals) : M locals :=
  match items with
  | [] => ret acc
  | item :: rest =>
      do acc' <- loop_body taxes acc item;
      for_items taxes rest acc'
  end.

Record totals : Type := mkTotals {
  t_subtotal : float;
  t_tax_total : float;
  t_total : float
}.

Record response : Type := mkResponse {
  status : string;
  r_totals : totals
}.

(** [sale.model_dump()] updated with the four computed fields. *)
Definition sale_record (s : Sale.t) (acc : locals) : Sale.t :=
  let total := Float.add (l_subtotal acc) (l_tax_total acc) in
  Sale.mk (Sale.items s) (Sale.customer_name s)
    (Float.round3 (l_subtotal acc))
    (Float.round3 (l_tax_total acc))
    (Float.round3 total)
    (Some (map (fun kv => (fst kv, Float.round3 (snd kv))) (l_tax_breakdown acc)))
    (Sale.payment s) (Sale.user s) (Sale.timestamp s).

Definition create_sale (s : Sale.t) : M response :=
  do docs <- get_documents_taxrate;
  let taxes := tax_map docs in
  do acc <- for_items taxes (Sale.items s) (mkLocals Float.zero Float.zero []);
  let rec := sale_record s acc in
  exec create_document_sale rec;
  ret (mkResponse "created"
         (mkTotals (Sale.subtotal rec) (Sale.tax_total rec) (Sale.total rec))).

(** ** Specification-level views of the loop *)

(** The SKU of a line is in the catalog. *)
Definition known (c : list (Doc Product.t)) (item : SaleItem.t) : Prop :=
  find_one_sku (SaleItem.sku item) c <> None.

Definition knownb (c : list (Doc Product.t)) (item : SaleItem.t) : bool :=
  match find_one_sku (SaleItem.sku item) c with
  | Some _ => true
  | None => false
  end.

(** The store's "decrement stock" for one line: the first product with the
    line's SKU loses the line's quantity. *)
Definition reduce_stock (c : list (Doc Product.t)) (item : SaleItem.t)
  : list (Doc Product.t) :=
  match find_one_sku (SaleItem.sku item) c with
  | Some prod => update_one_inc (_id prod) (Float.neg (SaleItem.qty item)) c
  | None => c
  end.

Definition stock_after (items : list SaleItem.t) (c : list (Doc Product.t))
  : list (Doc Product.t) :=
  fold_left reduce_stock items c.

Definition init_locals : locals := mkLocals Float.zero Float.zero [].

(** The aggregator: the fold of the lines into the running totals. *)
Definition aggregate (taxes : gmap string TaxRate.t) (items : list SaleItem.t)
  : locals :=
  fold_left (add_line taxes) items init_locals.

Definition line_amount (item : SaleItem.t) : float :=
  Float.mul (SaleItem.qty item) (SaleItem.unit_price item).

Definition line_tax (taxes : gmap string TaxRate.t) (item : SaleItem.t)
  : option float :=
  match taxed taxes item with
  | Some (_, t) => Some (Float.mul (line_amount item) (TaxRate.rate t))
  | None => None
  end.

(** Sum of the line amounts, from [0.0], in input order. *)
Definition sum_amounts (items : list SaleItem.t) : float :=
  fold_left (fun a item => Float.add a (line_amount item)) items Float.zero.

(** Sum of the line taxes, from [0.0], in input order; a line without a
    resolved rate adds nothing. *)
Definition sum_taxes (taxes : gmap string TaxRate.t) (items : list SaleItem.t)
  : float :=
  fold_left (fun a item =>
               match line_tax taxes item with
               | Some x => Float.add a x
               | None => a
               end) items Float.zero.

Definition set_product (db : DB) (c : list (Doc Product.t)) : DB :=
  mkDB c (taxrate db) (sale db) (next_id db).

Definition with_items (s : Sale.t) (items : list SaleItem.t) : Sale.t :=
  Sale.mk items (Sale.customer_name s) (Sale.subtotal s) (Sale.tax_total s)
    (Sale.total s) (Sale.tax_breakdown s) (Sale.payment s) (Sale.user s)
    (Sale.timestamp s).

(** The tax table a sale on [db] works with. *)
Definition taxes_of (db : DB) : gmap string TaxRate.t :=
  tax_map (map body (taxrate db)).

(** The store after a sale on [db] whose loop ended with [acc]. *)
Definition committed (s : Sale.t) (db : DB) (acc : locals) : DB :=
  mkDB (stock_after (Sale.items s) (product db)) (taxrate db)
       (sale db ++ [mkDoc (next_id db) (sale_record s acc)]) (S (next_id db)).

Definition created (s : Sale.t) (acc : locals) : response :=
  let rec := sale_record s acc in
  mkResponse "created"
    (mkTotals (Sale.subtotal rec) (Sale.tax_total rec) (Sale.total rec)).

(** Sum of the taxes of the lines resolved under the code [c], from [0.0],
    in input order. *)
Definition sum_taxes_of_code (taxes : gmap string TaxRate.t) (c : string)
    (items : list SaleItem.t) : float :=
  fold_left (fun a item =>
               match taxed taxes item with
               | Some (c', t) =>
                   if String.eqb c' c
                   then Float.add a (Float.mul (line_amount item) (TaxRate.rate t))
                   else a
               | None => a
               end) items Float.zero.

(** The entry of the breakdown under [c] after a run of lines, from the
    entry [o] before it. *)
Definition entry_after (taxes : gmap string TaxRate.t) (c : string)
    (items : list SaleItem.t) (o : option float) : option float :=
  fold_left (fun o item =>
               match taxed taxes item with
               | Some (c', t) =>
                   if String.eqb c' c
                   then Some (Float.add
                                (match o with Some v => v | None => Float.zero end)
                                (Float.mul (line_amount item) (TaxRate.rate t)))
                   else o
               | None => o
               end) items o.

(** The exact sum of the values of a breakdown. *)
Definition sum_values (bd : dict float) : Q :=
  fold_right (fun v a => Qplus (Float.to_Q v) a) 0%Q (dict_values bd).

(** The values of the breakdown add up to [tax_total] within one
    thousandth per code. *)
Definition within_tolerance (rec : Sale.t) : bool :=
  match Sale.tax_breakdown rec with
  | Some bd =>
      Qle_bool (Qabs (sum_values bd - Float.to_Q (Sale.tax_total rec)))
               ((1 # 1000) * inject_Z (Z.of_nat (length (dict_keys bd))))
  | None => false
  end.

(** The quantities of the lines whose SKU finds, in [c], the product with
    identifier [id], in input order. *)
Definition sold_to (c : list (Doc Product.t)) (id : nat)
    (items : list SaleItem.t) : list float :=
  flat_map (fun item =>
              match find_one_sku (SaleItem.sku item) c with
              | Some prod => if Nat.eqb (_id prod) id then [SaleItem.qty item] else []
              | None => []
              end) items.

(** A product after the quantities [qs] have been taken from its stock, one
    after the other. *)
Definition take_all (qs : list float) (d : Doc Product.t) : Doc Product.t :=
  mkDoc (_id d)
    (fold_left (fun p q => Product.inc_stock (Float.neg q) p) qs (body d)).

(** The stocks of a collection, in order. *)
Definition stocks (c : list (Doc Product.t)) : list float :=
  map (fun d => Product.stock (body d)) c.

(** The stock of a product is not negative: [0.0 <= stock]. *)
Definition stock_ok (d : Doc Product.t) : bool :=
  Float.leb Float.zero (Product.stock (body d)).

(** Every line's quantity is finite and at most the stock that its product
    has when the line is reached. *)
Fixpoint covered (items : list SaleItem.t) (c : list (Doc Product.t)) : Prop :=
  match items with
  | [] => True
  | item :: rest =>
      match find_one_sku (SaleItem.sku item) c with
      | Some prod =>
          Float.is_finite (SaleItem.qty item) = true
          /\ (Float.to_Q (SaleItem.qty item)
              <= Float.to_Q (Product.stock (body prod)))%Q
      | None => True
      end
      /\ covered rest (reduce_stock c item)
  end.

(** The power [2 ^ k] for an exponent of either sign. *)
Definition two_pow (k : Z) : Q :=
  if 0 <=? k then inject_Z (2 ^ k) else 1 # Z.to_pos (2 ^ (- k)).

(** ** Sample stores and requests *)

Module Examples.

Definition milk : Product.t :=
  Product.mk "MILK-1L" "Milk 1L" (Float.lit 5 2) (Float.of_Z 100) "pcs"
    (Some "TVA7") None (Some "Grocery") true.

Definition bread : Product.t :=
  Product.mk "BREAD-STD" "Bread" (Float.lit 6 10) (Float.of_Z 200) "pcs"
    (Some "TVA7") None (Some "Bakery") true.

Definition shampoo : Product.t :=
  Product.mk "SHMP-250" "Shampoo 250ml" (Float.lit 89 10) (Float.of_Z 50) "pcs"
    (Some "TVA19") None (Some "Personal Care") true.

(** The store after the default taxes and three demo products are in. *)
Definition seeded_db : DB :=
  snd ((exec ensure_default_taxes;
        exec create_document_product milk;
        exec create_document_product bread;
        exec create_document_product shampoo;
        ret tt) empty_db).

(** A store with one product and no tax rate: [create_product] on the
    empty store. *)
Definition untaxed_db : DB := snd (create_product milk empty_db).

Definition cash_payment (paid : Z) : Payment.t :=
  Payment.mk Payment.cash (Float.of_Z paid) Float.zero.

Definition request (items : list SaleItem.t) : Sale.t :=
  Sale.mk items None Float.zero Float.zero Float.zero None (cash_payment 1000)
    None None.

Definition line (sku : string) (qty price : float) (tax : option string)
  : SaleItem.t :=
  SaleItem.mk sku sku qty price tax.

(** Two lines, as in the worked example of the specification. *)
Definition milk_and_bread : Sale.t :=
  request [ line "MILK-1L" (Float.of_Z 2) (Float.lit 5 2) (Some "TVA7");
            line "BREAD-STD" (Float.of_Z 1) (Float.lit 6 10) (Some "TVA7") ].

(** One taxed line. *)
Definition milk_only : Sale.t :=
  request [ line "MILK-1L" (Float.of_Z 2) (Float.lit 5 2) (Some "TVA7") ].

(** A line under a code the tax table does not have, between a taxed line
    and one with no code. *)
Definition with_items_untaxed : Sale.t :=
  request [ line "MILK-1L" (Float.of_Z 2) (Float.lit 5 2) (Some "TVA7");
            line "BREAD-STD" (Float.of_Z 1) (Float.lit 6 10) (Some "TVA5");
            line "SHMP-250" (Float.of_Z 1) (Float.lit 89 10) None ].

(** One line of 0.350 under the 7% rate. *)
Definition small_taxed : Sale.t :=
  request [ line "BREAD-STD" (Float.of_Z 1) (Float.lit 35 100) (Some "TVA7") ].

(** A known line, an unknown one, a known one. *)
Definition with_unknown : Sale.t :=
  request [ line "MILK-1L" (Float.of_Z 2) (Float.lit 5 2) (Some "TVA7");
            line "FOO-1" (Float.of_Z 1) (Float.of_Z 1) None;
            line "BREAD-STD" (Float.of_Z 1) (Float.lit 6 10) (Some "TVA7") ].

(** More milk than the store holds. *)
Definition oversell : Sale.t :=
  request [ line "MILK-1L" (Float.of_Z 101) (Float.lit 5 2) (Some "TVA7") ].

(** The same request with totals of the client's own. *)
Definition forged : Sale.t :=
  Sale.mk (Sale.items milk_and_bread) None (Float.of_Z 1) (Float.of_Z 0)
    (Float.of_Z 1) (Some [("TVA7"%string, Float.of_Z 9)]) (cash_payment 1000)
    None None.

Definition empty_request : Sale.t := request [].

(** Three untaxed lines sold by weight, in two orders. *)
Definition by_weight : Sale.t :=
  request [ line "MILK-1L" (Float.of_Z 1) (Float.lit 1057 1000) None;
            line "BREAD-STD" (Float.of_Z 3) (Float.lit 1 10) None;
            line "SHMP-250" (Float.lit 3 2) (Float.lit 1707 1000) None ].

Definition by_weight_permuted : Sale.t :=
  request [ line "BREAD-STD" (Float.of_Z 3) (Float.lit 1 10) None;
            line "SHMP-250" (Float.lit 3 2) (Float.lit 1707 1000) None;
            line "MILK-1L" (Float.of_Z 1) (Float.lit 1057 1000) None ].

(** One very large line under one code, two small ones under another. *)
Definition two_codes : Sale.t :=
  request [ line "SHMP-250" (Float.of_Z 1) (Float.of_Z 1000000000000000) (Some "TVA19");
            line "MILK-1L" (Float.of_Z 1) (Float.of_Z 10) (Some "TVA7");
            line "MILK-1L" (Float.of_Z 1) (Float.of_Z 10) (Some "TVA7") ].

End Examples.

(** ** The rest of the handlers *)

Module User.
Inductive role_t : Type := cashier | manager | admin.

Record t : Type := mk {
  username : string;
  display_name : string;
  role : role_t;
  is_active : bool
}.
End User.

(** The store with its [db["user"]] collection beside the three others; the
    identifiers of all four come from the one counter. *)
Record Store : Type := mkStore {
  core : DB;
  user : list (Doc User.t)
}.

Definition empty_store : Store := mkStore empty_db [].

(** Handlers that touch the [user] collection run on the whole store. *)
Definition MS (A : Type) : Type := Store -> result A * Store.

Definition retS {A : Type} (a : A) : MS A := fun st => (Ok a, st).

Definition bindS {A B : Type} (m : MS A) (k : A -> MS B) : MS B :=
  fun st =>
    match m st with
    | (Ok a, st') => k a st'
    | (Raise e, st') => (Raise e, st')
    end.

(** A handler of the three collections, run on the whole store. *)
Definition lift {A : Type} (m : M A) : MS A :=
  fun st =>
    match m (core st) with
    | (r, db') => (r, mkStore db' (user st))
    end.

Notation "'doS' x <- m ; k" := (bindS m (fun x => k))
  (at level 10, x name, m at level 100, k at level 200).
Notation "'execS' m ; k" := (bindS m (fun _ => k))
  (at level 10, m at level 100, k at level 200).

(** [db["product"].count_documents({})]. *)
Definition count_documents_product : M nat :=
  fun db => (Ok (length (product db)), db).

(** [db["user"].count_documents({})]. *)
Definition count_documents_user : MS nat :=
  fun st => (Ok (length (user st)), st).

(** Modelled from the spec: [create_document("user", d)] of the absent
    [database] module, the store's "insert" capability: the document is
    appended to the collection under a fresh identifier. *)
Definition create_document_user (d : User.t) : MS unit :=
  fun st =>
    (Ok tt,
     mkStore (mkDB (product (core st)) (taxrate (core st)) (sale (core st))
                   (S (next_id (core st))))
             (user st ++ [mkDoc (next_id (core st)) d])).

(** The demo products of [seed_demo]; the keys the literals leave out
    ([barcode], [is_active]) have the defaults of the [Product] schema. *)
Definition demo_products : list Product.t :=
  [ Product.mk "MILK-1L" "Milk 1L" (Float.lit 2500 1000) (Float.of_Z 100) "pcs"
      (Some "TVA7") None (Some "Grocery") true;
    Product.mk "BREAD-STD" "Bread" (Float.lit 600 1000) (Float.of_Z 200) "pcs"
      (Some "TVA7") None (Some "Bakery") true;
    Product.mk "SHMP-250" "Shampoo 250ml" (Float.lit 8900 1000) (Float.of_Z 50)
      "pcs" (Some "TVA19") None (Some "Personal Care") true;
    Product.mk "SUGAR-1KG" "Sugar 1kg" (Float.lit 3200 1000) (Float.of_Z 80) "kg"
      (Some "TVA13") None (Some "Grocery") true ].

Definition demo_user : User.t := User.mk "admin" "Admin" User.admin true.

(** [for p in demo_products: create_document("product", p)]. *)
Fixpoint create_documents_product (ps : list Product.t) : M unit :=
  match ps with
  | [] => ret tt
  | p :: ps' =>
      exec create_document_product p;
      create_documents_product ps'
  end.

Record seed_response : Type := mkSeedResponse {
  seed_status : string;
  taxes_created : nat;
  products : nat;
  users : nat
}.

(** [seed_demo] once [db] is known not to be [None]. *)
Definition seed_demo_body : MS seed_response :=
  doS created_taxes <- lift ensure_default_taxes;
  doS n <- lift count_documents_product;
  execS (if Nat.eqb n 0
         then lift (create_documents_product demo_products)
         else retS tt);
  doS m <- count_documents_user;
  execS (if Nat.eqb m 0 then create_document_user demo_user else retS tt);
  doS products <- lift count_documents_product;
  doS users <- count_documents_user;
  retS (mkSeedResponse "ok" (length created_taxes) products users).

(** [seed_demo]; the module-level [db] is [None] when no database is
    configured. *)
Definition seed_demo (db : option Store) : result seed_response * option Store :=
  match db with
  | None => (Raise (mkHTTPException 500 "Database not configured"), None)
  | Some st =>
      match seed_demo_body st with
      | (r, st') => (r, Some st')
      end
  end.

(** [list_products] and [list_sales]. *)
Definition list_products : M (list Product.t) := get_documents_product.

Definition list_sales : M (list Sale.t) := get_documents_sale.

(** ** Views used by the statements *)

(** A product document with its stock blanked: everything a sale must leave
    alone. *)
Definition erase_stock (d : Doc Product.t) : Doc Product.t :=
  mkDoc (_id d)
    (Product.mk (Product.sku (body d)) (Product.name (body d))
       (Product.price (body d)) Float.zero (Product.unit (body d))
       (Product.tax_code (body d)) (Product.barcode (body d))
       (Product.category (body d)) (Product.is_active (body d))).

Definition skus (c : list (Doc Product.t)) : list string :=
  map (fun d => Product.sku (body d)) c.

(** The defaults whose code the tax table of [db] does not have. *)
Definition missing_defaults (db : DB) : list TaxRate.t :=
  List.filter (fun d => match taxes_of db !! TaxRate.code d with
                   | Some _ => false
                   | None => true
                   end) defaults.

(** Documents for [ds] under consecutive identifiers from [n]. *)
Fixpoint number_from {A : Type} (n : nat) (ds : list A) : list (Doc A) :=
  match ds with
  | [] => []
  | d :: ds' => mkDoc n d :: number_from (S n) ds'
  end.

(** The codes under which the lines of a request resolve, in input order. *)
Definition resolved_codes (taxes : gmap string TaxRate.t)
    (items : list SaleItem.t) : list string :=
  flat_map (fun item => match taxed taxes item with
                        | Some (c, _) => [c]
                        | None => []
                        end) items.

(** One request served by a handler that writes: the store before and
    after. *)
Inductive step : Store -> Store -> Prop :=
| step_create_product (p : Product.t) (st : Store) :
    step st (lift (create_product p) st).2
| step_create_sale (s : Sale.t) (st : Store) :
    step st (lift (create_sale s) st).2
| step_list_taxes (st : Store) :
    step st (lift list_taxes st).2
| step_seed_demo (st : Store) :
    step st (seed_demo_body st).2.

(** The stores that requests can lead to from the empty one. *)
Inductive reachable : Store -> Prop :=
| reachable_empty : reachable empty_store
| reachable_step (st st' : Store) :
    reachable st -> step st st' -> reachable st'.

(** Product identifiers are unique and below the counter, and SKUs are
    unique. *)
Definition catalog_ok (db : DB) : Prop :=
  NoDup (skus (product db))
  /\ NoDup (map _id (product db))
  /\ Forall (fun d => (_id d < next_id db)%nat) (product db).

(** The elements of a list in the order in which they first occur. *)
Fixpoint first_occurrences (l : list string) : list string :=
  match l with
  | [] => []
  | c :: l' =>
      c :: List.filter (fun x => negb (String.eqb x c)) (first_occurrences l')
  end.

(** Membership in a list of strings, as a boolean. *)
Definition mem (ks : list string) (x : string) : bool :=
  existsb (String.eqb x) ks.

Module MoreExamples.

(** The seeded store with other prices, stocks and tax codes under the same
    SKUs. *)
Definition repriced_db : DB :=
  mkDB (map (fun d =>
               mkDoc (_id d)
                 (Product.mk (Product.sku (body d)) (Product.name (body d))
                    (Float.of_Z 999) (Float.of_Z 0) "box" None None None false))
            (product Examples.seeded_db))
       (taxrate Examples.seeded_db) [] (next_id Examples.seeded_db).

(** The two-line request with nothing paid, for a named customer. *)
Definition unpaid : Sale.t :=
  Sale.mk (Sale.items Examples.milk_and_bread) (Some "Ali"%string) Float.zero
    Float.zero Float.zero None (Payment.mk Payment.card Float.zero Float.zero)
    (Some "admin"%string) (Some 1730000000).

(** Lines under 19%, 7% and 19% again, and one under an unknown code. *)
Definition mixed_codes : Sale.t :=
  Examples.request
    [ Examples.line "SHMP-250" (Float.of_Z 1) (Float.lit 89 10) (Some "TVA19");
      Examples.line "MILK-1L" (Float.of_Z 2) (Float.lit 5 2) (Some "TVA7");
      Examples.line "BREAD-STD" (Float.of_Z 1) (Float.lit 6 10) (Some "TVA5");
      Examples.line "SHMP-250" (Float.of_Z 2) (Float.lit 89 10) (Some "TVA19") ].

End MoreExamples.

(** The running totals are all [>= 0.0]. *)
Definition locals_ok (acc : locals) : Prop :=
  Float.leb Float.zero (l_subtotal acc) = true
  /\ Float.leb Float.zero (l_tax_total acc) = true
  /\ forall c v, dict_lookup (l_tax_breakdown acc) c = Some v ->
       Float.leb Float.zero v = true.

(** The line passes the schema and its quantity is finite. *)
Definition finite_line (item : SaleItem.t) : Prop :=
  SaleItem.valid item = true /\ Float.is_finite (SaleItem.qty item) = true.

(** The rate is positive and finite. *)
Definition positive_rate (t : TaxRate.t) : Prop :=
  Float.ltb Float.zero (TaxRate.rate t) = true
  /\ Float.is_finite (TaxRate.rate t) = true.

(** ** The product collection under stock updates *)

Section Catalog.

Implicit Types (c : list (Doc Product.t)) (item : SaleItem.t).

Lemma update_one_inc_skus id delta c :
  map (fun d => Product.sku (body d)) (update_one_inc id delta c)
  = map (fun d => Product.sku (body d)) c.
Proof.
  induction c as [|d c IH]; simpl; [reflexivity|].
  destruct (Nat.eqb (_id d) id); simpl; [reflexivity|].
  now rewrite IH.
Qed.

Lemma update_one_inc_ids id delta c :
  map _id (update_one_inc id delta c) = map _id c.
Proof.
  induction c as [|d c IH]; simpl; [reflexivity|].
  destruct (Nat.eqb (_id d) id); simpl; [reflexivity|].
  now rewrite IH.
Qed.

(** A stock update changes neither which document a SKU finds nor its
    identifier. *)
Lemma find_one_sku_update sku id delta c :
  option_map _id (find_one_sku sku (update_one_inc id delta c))
  = option_map _id (find_one_sku sku c).
Proof.
  unfold find_one_sku.
  induction c as [|d c IH]; simpl; [reflexivity|].
  destruct (Nat.eqb (_id d) id); simpl.
  - destruct (String.eqb (Product.sku (body d)) sku); reflexivity.
  - destruct (String.eqb (Product.sku (body d)) sku); [reflexivity|exact IH].
Qed.

Lemma find_one_sku_update_None sku id delta c :
  find_one_sku sku (update_one_inc id delta c) = None
  <-> find_one_sku sku c = None.
Proof.
  pose proof (find_one_sku_update sku id delta c) as H.
  destruct (find_one_sku sku (update_one_inc id delta c)),
           (find_one_sku sku c); simpl in H; split; congruence.
Qed.

Lemma find_one_sku_reduce sku item c :
  option_map _id (find_one_sku sku (reduce_stock c item))
  = option_map _id (find_one_sku sku c).
Proof.
  unfold reduce_stock.
  destruct (find_one_sku (SaleItem.sku item) c); [|reflexivity].
  apply find_one_sku_update.
Qed.

Lemma find_one_sku_reduce_None sku item c :
  find_one_sku sku c = None ->
  find_one_sku sku (reduce_stock c item) = None.
Proof.
  intros H. pose proof (find_one_sku_reduce sku item c) as E.
  rewrite H in E.
  destruct (find_one_sku sku (reduce_stock c item)); [discriminate|reflexivity].
Qed.

Lemma find_one_sku_stock_after sku items c :
  option_map _id (find_one_sku sku (stock_after items c))
  = option_map _id (find_one_sku sku c).
Proof.
  unfold stock_after. revert c.
  induction items as [|item items IH]; intros c; simpl; [reflexivity|].
  rewrite IH. apply find_one_sku_reduce.
Qed.

Lemma known_stock_after items c item :
  known (stock_after items c) item <-> known c item.
Proof.
  unfold known.
  pose proof (find_one_sku_stock_after (SaleItem.sku item) items c) as H.
  destruct (find_one_sku (SaleItem.sku item) (stock_after items c)),
           (find_one_sku (SaleItem.sku item) c); simpl in H;
    split; congruence.
Qed.

Lemma known_reduce_stock it c item :
  known (reduce_stock c it) item <-> known c item.
Proof. apply (known_stock_after [it]). Qed.

Lemma knownb_true c item : knownb c item = true <-> known c item.
Proof.
  unfold knownb, known.
  destruct (find_one_sku (SaleItem.sku item) c); split; congruence.
Qed.

Lemma stock_after_app pre post c :
  stock_after (pre ++ post) c = stock_after post (stock_after pre c).
Proof. apply fold_left_app. Qed.

(** Either every line is known, or there is a first unknown one. *)
Lemma first_unknown c items :
  Forall (known c) items
  \/ exists pre bad post,
       items = pre ++ bad :: post
       /\ Forall (known c) pre
       /\ find_one_sku (SaleItem.sku bad) c = None.
Proof.
  induction items as [|item items IH].
  - left. constructor.
  - destruct (find_one_sku (SaleItem.sku item) c) as [p|] eqn:E.
    + destruct IH as [IH|(pre & bad & post & -> & Hpre & Hbad)].
      * left. constructor; [unfold known; congruence|exact IH].
      * right. exists (item :: pre), bad, post.
        split; [reflexivity|]. split; [|exact Hbad].
        constructor; [unfold known; congruence|exact Hpre].
    + right. exists [], item, items. repeat split; [constructor|exact E].
Qed.

End Catalog.

(** ** The loop, run *)

Section Loop.

Variable taxes : gmap string TaxRate.t.

Lemma set_product_id db : set_product db (product db) = db.
Proof. destruct db; reflexivity. Qed.

Lemma loop_body_known acc item db :
  known (product db) item ->
  loop_body taxes acc item db
  = (Ok (add_line taxes acc item),
     set_product db (reduce_stock (product db) item)).
Proof.
  unfold known, loop_body, reduce_stock, bind, find_one_product. intros H.
  destruct (find_one_sku (SaleItem.sku item) (product db)); [|congruence].
  reflexivity.
Qed.

Lemma loop_body_unknown acc item db :
  find_one_sku (SaleItem.sku item) (product db) = None ->
  loop_body taxes acc item db = (Raise (unknown_sku item), db).
Proof.
  unfold loop_body, bind, find_one_product. intros ->. reflexivity.
Qed.

Lemma for_items_known items : forall acc db,
  Forall (known (product db)) items ->
  for_items taxes items acc db
  = (Ok (fold_left (add_line taxes) items acc),
     set_product db (stock_after items (product db))).
Proof.
  induction items as [|item items IH]; intros acc db H; simpl.
  - unfold ret. now rewrite set_product_id.
  - inversion H as [|? ? Hitem Hrest]; subst.
    unfold bind at 1. rewrite (loop_body_known _ _ _ Hitem).
    rewrite IH.
    + reflexivity.
    + simpl. eapply Forall_impl; [exact Hrest|].
      intros it Hit. now apply known_reduce_stock.
Qed.

Lemma for_items_unknown pre bad post : forall acc db,
  Forall (known (product db)) pre ->
  find_one_sku (SaleItem.sku bad) (product db) = None ->
  for_items taxes (pre ++ bad :: post) acc db
  = (Raise (unknown_sku bad),
     set_product db (stock_after pre (product db))).
Proof.
  induction pre as [|item pre IH]; intros acc db Hpre Hbad; simpl.
  - unfold bind. rewrite (loop_body_unknown _ _ _ Hbad).
    now rewrite set_product_id.
  - inversion Hpre as [|? ? Hitem Hrest]; subst.
    unfold bind at 1. rewrite (loop_body_known _ _ _ Hitem).
    rewrite IH.
    + reflexivity.
    + simpl. eapply Forall_impl; [exact Hrest|].
      intros it Hit. now apply known_reduce_stock.
    + simpl. now apply find_one_sku_reduce_None.
Qed.

End Loop.

(** ** [create_sale], run *)

Lemma create_sale_known s db :
  Forall (known (product db)) (Sale.items s) ->
  create_sale s db
  = (Ok (created s (aggregate (taxes_of db) (Sale.items s))),
     committed s db (aggregate (taxes_of db) (Sale.items s))).
Proof.
  intros H. unfold create_sale, bind, get_documents_taxrate.
  rewrite (for_items_known _ _ _ _ H). reflexivity.
Qed.

Lemma create_sale_unknown s db pre bad post :
  Sale.items s = pre ++ bad :: post ->
  Forall (known (product db)) pre ->
  find_one_sku (SaleItem.sku bad) (product db) = None ->
  create_sale s db
  = (Raise (unknown_sku bad), set_product db (stock_after pre (product db))).
Proof.
  intros E Hpre Hbad. unfold create_sale, bind, get_documents_taxrate.
  rewrite E, (for_items_unknown _ _ _ _ _ _ Hpre Hbad). reflexivity.
Qed.

Lemma unknown_not_all_known c (items : list SaleItem.t) item :
  item ∈ items ->
  find_one_sku (SaleItem.sku item) c = None ->
  ~ Forall (known c) items.
Proof.
  intros Hin Hnone Hall.
  rewrite Forall_forall in Hall. exact (Hall _ Hin Hnone).
Qed.

(** The running subtotal and tax total are the two sums. *)
Lemma fold_add_line_subtotal taxes items : forall acc,
  l_subtotal (fold_left (add_line taxes) items acc)
  = fold_left (fun a item => Float.add a (line_amount item)) items
      (l_subtotal acc).
Proof.
  induction items as [|item items IH]; intros acc; simpl; [reflexivity|].
  rewrite IH. f_equal.
  unfold add_line. destruct (taxed taxes item) as [[c t]|]; reflexivity.
Qed.

Lemma fold_add_line_tax_total taxes items : forall acc,
  l_tax_total (fold_left (add_line taxes) items acc)
  = fold_left (fun a item =>
                 match line_tax taxes item with
                 | Some x => Float.add a x
                 | None => a
                 end) items (l_tax_total acc).
Proof.
  induction items as [|item items IH]; intros acc; simpl; [reflexivity|].
  rewrite IH. f_equal.
  unfold add_line, line_tax. destruct (taxed taxes item) as [[c t]|]; reflexivity.
Qed.

Lemma aggregate_subtotal taxes items :
  l_subtotal (aggregate taxes items) = sum_amounts items.
Proof. apply fold_add_line_subtotal. Qed.

Lemma aggregate_tax_total taxes items :
  l_tax_total (aggregate taxes items) = sum_taxes taxes items.
Proof. apply fold_add_line_tax_total. Qed.

(** ** Failure: unknown SKUs *)

(** C7. [create_sale] raises exactly when some line's SKU has no product in
    the catalog; when it raises, the [sale] collection is as it was, and the
    exception is the 400 whose detail names the SKU of the first line, in
    input order, that has no product. *)
Theorem create_sale_raises_iff_unknown_sku (s : Sale.t) (db : DB) :
  ((exists item, item ∈ Sale.items s
                 /\ find_one_sku (SaleItem.sku item) (product db) = None)
   <-> exists e, (create_sale s db).1 = Raise e)
  /\ forall e, (create_sale s db).1 = Raise e ->
       sale (create_sale s db).2 = sale db
       /\ exists pre bad post,
            Sale.items s = pre ++ bad :: post
            /\ Forall (known (product db)) pre
            /\ find_one_sku (SaleItem.sku bad) (product db) = None
            /\ e = unknown_sku bad
            /\ status_code e = 400
            /\ detail e = String.append "Unknown SKU: " (SaleItem.sku bad).
Proof.
  destruct (first_unknown (product db) (Sale.items s))
    as [Hall|(pre & bad & post & E & Hpre & Hbad)].
  - rewrite (create_sale_known _ _ Hall). simpl. split.
    + split.
      * intros (item & Hin & Hnone).
        destruct (unknown_not_all_known _ _ _ Hin Hnone Hall).
      * intros (e & He). discriminate.
    + intros e He. discriminate.
  - rewrite (create_sale_unknown _ _ _ _ _ E Hpre Hbad). simpl. split.
    + split.
      * intros _. eexists. reflexivity.
      * intros _. exists bad. split; [|exact Hbad].
        rewrite E. apply elem_of_app. right. constructor.
    + intros e He. injection He as <-. split; [reflexivity|].
      exists pre, bad, post. repeat split; assumption.
Qed.


(** ** Totals *)

(** C10. With an empty [items] list [create_sale] returns: the products are
    untouched, one sale record is appended whose [subtotal], [tax_total]
    and [total] are [0.0] and whose [tax_breakdown] is the empty dict, and
    the response carries the three zero totals. *)
Theorem empty_sale_is_committed_with_zero_totals (s : Sale.t) (db : DB) :
  Sale.items s = [] ->
  create_sale s db
  = (Ok (mkResponse "created" (mkTotals Float.zero Float.zero Float.zero)),
     mkDB (product db) (taxrate db)
       (sale db ++ [mkDoc (next_id db)
                      (Sale.mk [] (Sale.customer_name s) Float.zero Float.zero
                         Float.zero (Some []) (Sale.payment s) (Sale.user s)
                         (Sale.timestamp s))])
       (S (next_id db))).
Proof.
  intros E. unfold create_sale, bind, get_documents_taxrate. rewrite E.
  simpl. unfold ret, create_document_sale, sale_record. simpl. rewrite E.
  reflexivity.
Qed.

(** C9. The [subtotal], [tax_total], [total] and [tax_breakdown] a request
    carries are not read: two requests that agree on every other field
    leave the same store, the same persisted record included, and get the
    same response. *)
Theorem client_totals_are_ignored (s1 s2 : Sale.t) (db : DB) :
  Sale.items s1 = Sale.items s2 ->
  Sale.customer_name s1 = Sale.customer_name s2 ->
  Sale.payment s1 = Sale.payment s2 ->
  Sale.user s1 = Sale.user s2 ->
  Sale.timestamp s1 = Sale.timestamp s2 ->
  create_sale s1 db = create_sale s2 db.
Proof.
  intros Hi Hc Hp Hu Ht.
  unfold create_sale, sale_record. rewrite Hi, Hc, Hp, Hu, Ht. reflexivity.
Qed.

(** C3 (amended). When every SKU of the request is in the catalog the sale
    is committed, and in the record appended (and in the response)
    [subtotal] is the sum of [qty * unit_price] over the lines, [tax_total]
    the sum of the line taxes and [total] the sum of these two unrounded
    sums, each of the three rounded to three decimals once, at the end, not
    per line. (So [total] is the rounding of the unrounded sum, not the sum
    of the two rounded fields.) *)
Theorem totals_are_rounded_once (s : Sale.t) (db : DB) :
  Forall (known (product db)) (Sale.items s) ->
  exists rec,
    create_sale s db
    = (Ok (mkResponse "created"
             (mkTotals (Sale.subtotal rec) (Sale.tax_total rec) (Sale.total rec))),
       mkDB (stock_after (Sale.items s) (product db)) (taxrate db)
            (sale db ++ [mkDoc (next_id db) rec]) (S (next_id db)))
    /\ Sale.subtotal rec = Float.round3 (sum_amounts (Sale.items s))
    /\ Sale.tax_total rec
       = Float.round3 (sum_taxes (taxes_of db) (Sale.items s))
    /\ Sale.total rec
       = Float.round3 (Float.add (sum_amounts (Sale.items s))
                                 (sum_taxes (taxes_of db) (Sale.items s))).
Proof.
  intros Hall.
  exists (sale_record s (aggregate (taxes_of db) (Sale.items s))).
  rewrite (create_sale_known _ _ Hall).
  split; [reflexivity|].
  simpl. rewrite aggregate_subtotal, aggregate_tax_total. auto.
Qed.

(** ** The tax breakdown *)

Lemma dict_lookup_set {V : Type} (d : dict V) (k k' : string) (v : V) :
  dict_lookup (dict_set d k v) k'
  = if String.eqb k k' then Some v else dict_lookup d k'.
Proof.
  induction d as [|[k0 v0] d IH]; simpl.
  - reflexivity.
  - destruct (String.eqb k0 k) eqn:E0; simpl.
    + apply String.eqb_eq in E0. subst k0.
      destruct (String.eqb k k'); reflexivity.
    + rewrite IH. destruct (String.eqb k0 k') eqn:E1; [|reflexivity].
      apply String.eqb_eq in E1. subst k0.
      now rewrite String.eqb_sym, E0.
Qed.

Lemma dict_get_lookup {V : Type} (d : dict V) (k : string) (default : V) :
  dict_get d k default
  = match dict_lookup d k with Some v => v | None => default end.
Proof.
  induction d as [|[k0 v0] d IH]; simpl; [reflexivity|].
  destruct (String.eqb k0 k); [reflexivity|exact IH].
Qed.

Lemma dict_lookup_map {V W : Type} (f : V -> W) (d : dict V) (k : string) :
  dict_lookup (map (fun kv => (fst kv, f (snd kv))) d) k
  = option_map f (dict_lookup d k).
Proof.
  induction d as [|[k0 v0] d IH]; simpl; [reflexivity|].
  destruct (String.eqb k0 k); [reflexivity|exact IH].
Qed.

(** When no rate applies, a line touches the subtotal only. *)
Lemma add_line_untaxed taxes acc item :
  taxed taxes item = None ->
  add_line taxes acc item
  = mkLocals (Float.add (l_subtotal acc) (line_amount item))
             (l_tax_total acc) (l_tax_breakdown acc).
Proof. unfold add_line. intros ->. reflexivity. Qed.

Lemma taxed_None taxes item :
  SaleItem.tax_code item = None
  \/ (exists c, SaleItem.tax_code item = Some c /\ taxes !! c = None) ->
  taxed taxes item = None.
Proof.
  unfold taxed. intros [->|(c & -> & ->)]; [reflexivity|].
  destruct (String.eqb c ""); reflexivity.
Qed.

Lemma taxed_Some taxes item c t :
  taxed taxes item = Some (c, t) ->
  SaleItem.tax_code item = Some c /\ c <> ""%string /\ taxes !! c = Some t.
Proof.
  unfold taxed. destruct (SaleItem.tax_code item) as [c'|]; [|discriminate].
  destruct (String.eqb c' "") eqn:E; [discriminate|].
  destruct (taxes !! c') as [t'|] eqn:L; [|discriminate].
  intros [= <- <-]. apply String.eqb_neq in E. auto.
Qed.

(** The tax fields after a run of lines depend on the tax fields before it
    only. *)
Lemma fold_add_line_tax_fields taxes items : forall acc1 acc2,
  l_tax_total acc1 = l_tax_total acc2 ->
  l_tax_breakdown acc1 = l_tax_breakdown acc2 ->
  l_tax_total (fold_left (add_line taxes) items acc1)
  = l_tax_total (fold_left (add_line taxes) items acc2)
  /\ l_tax_breakdown (fold_left (add_line taxes) items acc1)
     = l_tax_breakdown (fold_left (add_line taxes) items acc2).
Proof.
  induction items as [|item items IH]; intros acc1 acc2 Ht Hb; simpl.
  - auto.
  - apply IH; unfold add_line;
      destruct (taxed taxes item) as [[c t]|]; simpl; congruence.
Qed.

(** A code enters the breakdown only from a line that carries it and
    resolves in the tax table. *)
Lemma breakdown_key_resolves taxes items c : forall acc,
  dict_lookup (l_tax_breakdown (fold_left (add_line taxes) items acc)) c <> None ->
  dict_lookup (l_tax_breakdown acc) c <> None
  \/ (c <> ""%string /\ taxes !! c <> None).
Proof.
  induction items as [|item items IH]; intros acc H; simpl in H.
  - left. exact H.
  - destruct (IH _ H) as [H1|H1]; [|right; exact H1].
    unfold add_line in H1.
    destruct (taxed taxes item) as [[c' t]|] eqn:E; simpl in H1.
    + rewrite dict_lookup_set in H1.
      destruct (String.eqb c' c) eqn:Ec.
      * apply String.eqb_eq in Ec. subst c'.
        apply taxed_Some in E as (_ & Hne & Hl). right. split; congruence.
      * left. exact H1.
    + left. exact H1.
Qed.

Lemma aggregate_without_untaxed taxes pre item post :
  taxed taxes item = None ->
  l_tax_total (aggregate taxes (pre ++ item :: post))
  = l_tax_total (aggregate taxes (pre ++ post))
  /\ l_tax_breakdown (aggregate taxes (pre ++ item :: post))
     = l_tax_breakdown (aggregate taxes (pre ++ post)).
Proof.
  intros E. unfold aggregate. rewrite !fold_left_app. simpl.
  apply fold_add_line_tax_fields; rewrite (add_line_untaxed _ _ _ E);
    reflexivity.
Qed.

(** C4. A line whose tax code is absent, or is not a code of the tax-rate
    table, raises nothing: with every SKU of the request in the catalog the
    sale is committed; the line adds [qty * unit_price] to the running
    subtotal and leaves the running tax total and breakdown as they were, so
    that the persisted [tax_total] and [tax_breakdown] are those of the
    request without the line, and the breakdown has no entry under the
    line's code. *)
Theorem untaxed_line_counts_in_subtotal_only
    (s : Sale.t) (db : DB) (pre post : list SaleItem.t) (item : SaleItem.t) :
  Sale.items s = pre ++ item :: post ->
  Forall (known (product db)) (Sale.items s) ->
  (SaleItem.tax_code item = None
   \/ exists c, SaleItem.tax_code item = Some c /\ taxes_of db !! c = None) ->
  let taxes := taxes_of db in
  let before := aggregate taxes pre in
  exists rec bd,
    create_sale s db
    = (Ok (mkResponse "created"
             (mkTotals (Sale.subtotal rec) (Sale.tax_total rec) (Sale.total rec))),
       mkDB (stock_after (Sale.items s) (product db)) (taxrate db)
            (sale db ++ [mkDoc (next_id db) rec]) (S (next_id db)))
    /\ add_line taxes before item
       = mkLocals (Float.add (l_subtotal before)
                     (Float.mul (SaleItem.qty item) (SaleItem.unit_price item)))
                  (l_tax_total before) (l_tax_breakdown before)
    /\ Sale.subtotal rec
       = Float.round3
           (fold_left (fun a i => Float.add a (line_amount i)) post
              (Float.add (sum_amounts pre)
                 (Float.mul (SaleItem.qty item) (SaleItem.unit_price item))))
    /\ Sale.tax_total rec = Float.round3 (sum_taxes taxes (pre ++ post))
    /\ Sale.tax_breakdown rec = Some bd
    /\ Sale.tax_breakdown
         (sale_record s (aggregate taxes (pre ++ post))) = Some bd
    /\ forall c, SaleItem.tax_code item = Some c -> dict_lookup bd c = None.
Proof.
  intros E Hall Hcode taxes before.
  pose proof (taxed_None taxes item Hcode) as Hun.
  destruct (aggregate_without_untaxed taxes pre item post Hun) as [Ht Hb].
  exists (sale_record s (aggregate taxes (Sale.items s))).
  eexists.
  rewrite (create_sale_known _ _ Hall).
  split; [reflexivity|].
  split; [apply (add_line_untaxed _ _ _ Hun)|].
  split.
  { simpl. rewrite aggregate_subtotal, E. unfold sum_amounts.
    rewrite fold_left_app. reflexivity. }
  split.
  { simpl. rewrite E, Ht. now rewrite aggregate_tax_total. }
  split; [reflexivity|].
  split.
  { simpl. rewrite E, Hb. reflexivity. }
  intros c Hc. rewrite dict_lookup_map.
  destruct (dict_lookup (l_tax_breakdown (aggregate taxes (Sale.items s))) c)
    eqn:L; [|reflexivity].
  exfalso.
  destruct (breakdown_key_resolves taxes (Sale.items s) c init_locals)
    as [H|[_ H]].
  - unfold aggregate in L. congruence.
  - simpl in H. congruence.
  - destruct Hcode as [Hn|(c' & Hc' & Hl)]; [congruence|].
    apply H. replace c with c' by congruence. exact Hl.
Qed.

(** ** Order of the lines *)

Lemma add_comm (x y : float) : Float.add x y = Float.add y x.
Proof.
  destruct x as [sx|sx| |sx mx ex], y as [sy|sy| |sy my ey];
    try reflexivity;
    try (destruct sx, sy; reflexivity).
  unfold Float.add, SFadd.
  rewrite (Z.min_comm ey ex). f_equal. apply Z.add_comm.
Qed.

(** From [0.0], adding [x] then [y] is adding [y] then [x]. *)
Lemma add_zero_swap (x y : float) :
  Float.add (Float.add Float.zero x) y = Float.add (Float.add Float.zero y) x.
Proof.
  destruct x as [sx|sx| |sx mx ex], y as [sy|sy| |sy my ey];
    try reflexivity;
    try (destruct sx, sy; reflexivity);
    try (destruct sx; reflexivity);
    try (destruct sy; reflexivity).
  change (Float.add Float.zero (S754_finite sx mx ex)) with (S754_finite sx mx ex).
  change (Float.add Float.zero (S754_finite sy my ey)) with (S754_finite sy my ey).
  apply add_comm.
Qed.

Lemma aggregate_swap_first_two taxes a b rest :
  l_subtotal (aggregate taxes (a :: b :: rest))
  = l_subtotal (aggregate taxes (b :: a :: rest))
  /\ l_tax_total (aggregate taxes (a :: b :: rest))
     = l_tax_total (aggregate taxes (b :: a :: rest)).
Proof.
  unfold aggregate. simpl.
  rewrite !fold_add_line_subtotal, !fold_add_line_tax_total.
  split; f_equal.
  - unfold add_line.
    destruct (taxed taxes a) as [[ca ta]|], (taxed taxes b) as [[cb tb]|];
      simpl; apply add_zero_swap.
  - unfold add_line.
    destruct (taxed taxes a) as [[ca ta]|], (taxed taxes b) as [[cb tb]|];
      simpl; try reflexivity.
    apply add_zero_swap.
Qed.

(** C6 (amended). With every SKU in the catalog, exchanging the first two
    lines of a request leaves [subtotal], [tax_total] and [total]
    identical, in the response and in the persisted record: both requests
    are committed, and the running sums start from [0.0] and float addition
    commutes. (Other permutations re-associate the float sums and can
    change the totals.) *)
Theorem swapping_first_two_lines_keeps_totals
    (s : Sale.t) (db : DB) (a b : SaleItem.t) (rest : list SaleItem.t) :
  Sale.items s = a :: b :: rest ->
  Forall (known (product db)) (Sale.items s) ->
  exists t rec rec' db1 db2,
    create_sale s db = (Ok (mkResponse "created" t), db1)
    /\ create_sale (with_items s (b :: a :: rest)) db
       = (Ok (mkResponse "created" t), db2)
    /\ sale db1 = sale db ++ [mkDoc (next_id db) rec]
    /\ sale db2 = sale db ++ [mkDoc (next_id db) rec']
    /\ Sale.subtotal rec = Sale.subtotal rec' /\ Sale.subtotal rec = t_subtotal t
    /\ Sale.tax_total rec = Sale.tax_total rec'
    /\ Sale.tax_total rec = t_tax_total t
    /\ Sale.total rec = Sale.total rec' /\ Sale.total rec = t_total t.
Proof.
  intros E Hall.
  assert (Hall' : Forall (known (product db))
                    (Sale.items (with_items s (b :: a :: rest)))).
  { simpl. rewrite E in Hall.
    inversion Hall as [|? ? Ha Hr]; subst.
    inversion Hr as [|? ? Hb Hrest]; subst.
    repeat constructor; assumption. }
  rewrite (create_sale_known _ _ Hall), (create_sale_known _ _ Hall').
  destruct (aggregate_swap_first_two (taxes_of db) a b rest) as [Hs Ht].
  exists (r_totals (created s (aggregate (taxes_of db) (Sale.items s)))),
    (sale_record s (aggregate (taxes_of db) (Sale.items s))),
    (sale_record (with_items s (b :: a :: rest))
       (aggregate (taxes_of db) (b :: a :: rest))),
    (committed s db (aggregate (taxes_of db) (Sale.items s))),
    (committed (with_items s (b :: a :: rest)) db
       (aggregate (taxes_of db) (b :: a :: rest))).
  unfold created, committed. simpl. rewrite E, Hs, Ht.
  repeat split; reflexivity.
Qed.

(** ** Breakdown against tax total *)

Lemma breakdown_entry_after taxes c items : forall acc,
  dict_lookup (l_tax_breakdown (fold_left (add_line taxes) items acc)) c
  = entry_after taxes c items (dict_lookup (l_tax_breakdown acc) c).
Proof.
  unfold entry_after.
  induction items as [|item items IH]; intros acc; simpl; [reflexivity|].
  rewrite IH. f_equal. unfold add_line.
  destruct (taxed taxes item) as [[c' t]|]; simpl; [|reflexivity].
  rewrite dict_lookup_set, dict_get_lookup.
  destruct (String.eqb c' c) eqn:E; [|reflexivity].
  apply String.eqb_eq in E. subst c'. reflexivity.
Qed.

Lemma entry_after_value taxes c items : forall o v,
  entry_after taxes c items o = Some v ->
  v = fold_left (fun a item =>
                   match taxed taxes item with
                   | Some (c', t) =>
                       if String.eqb c' c
                       then Float.add a (Float.mul (line_amount item) (TaxRate.rate t))
                       else a
                   | None => a
                   end) items (match o with Some x => x | None => Float.zero end)
      /\ (o = None -> exists item t, item ∈ items /\ taxed taxes item = Some (c, t)).
Proof.
  unfold entry_after.
  induction items as [|item items IH]; intros o v H; simpl in *.
  - subst o. split; [reflexivity|discriminate].
  - destruct (taxed taxes item) as [[c' t]|] eqn:E.
    + destruct (String.eqb c' c) eqn:Ec.
      * apply String.eqb_eq in Ec. subst c'.
        destruct (IH _ _ H) as [-> _]. split; [reflexivity|].
        intros _. exists item, t. split; [constructor|exact E].
      * destruct (IH _ _ H) as [-> Hex]. split; [reflexivity|].
        intros Ho. destruct (Hex Ho) as (i & t' & Hin & Hi).
        exists i, t'. split; [now constructor|exact Hi].
    + destruct (IH _ _ H) as [-> Hex]. split; [reflexivity|].
      intros Ho. destruct (Hex Ho) as (i & t' & Hin & Hi).
      exists i, t'. split; [now constructor|exact Hi].
Qed.

Lemma entry_after_Some taxes c items : forall x,
  entry_after taxes c items (Some x) <> None.
Proof.
  unfold entry_after.
  induction items as [|item items IH]; intros x; simpl; [discriminate|].
  destruct (taxed taxes item) as [[c' t]|]; [|apply IH].
  destruct (String.eqb c' c); apply IH.
Qed.

(** A line that resolves under [c] leaves an entry under [c]. *)
Lemma taxed_line_has_entry taxes c t items item : forall o,
  item ∈ items ->
  taxed taxes item = Some (c, t) ->
  entry_after taxes c items o <> None.
Proof.
  induction items as [|i items IH]; intros o Hin E.
  - inversion Hin.
  - apply elem_of_cons in Hin as [<-|Hin].
    + unfold entry_after. simpl. rewrite E, String.eqb_refl.
      apply entry_after_Some.
    + apply (IH _ Hin E).
Qed.

(** When every resolved line is under [c], the sum under [c] is the sum of
    all the taxes. *)
Lemma sum_taxes_single_code taxes c items :
  (forall item c' t, item ∈ items -> taxed taxes item = Some (c', t) -> c' = c) ->
  sum_taxes_of_code taxes c items = sum_taxes taxes items.
Proof.
  unfold sum_taxes_of_code, sum_taxes, line_tax.
  generalize Float.zero.
  induction items as [|item items IH]; intros z H; simpl; [reflexivity|].
  rewrite IH.
  - f_equal. destruct (taxed taxes item) as [[c' t]|] eqn:E; [|reflexivity].
    rewrite (H item c' t (list_elem_of_here _ _) E), String.eqb_refl.
    reflexivity.
  - intros i c' t Hin. apply H. now constructor.
Qed.

Lemma sum_taxes_untaxed taxes items :
  (forall item, item ∈ items -> taxed taxes item = None) ->
  sum_taxes taxes items = Float.zero.
Proof.
  unfold sum_taxes, line_tax. generalize Float.zero.
  induction items as [|item items IH]; intros z H; simpl; [reflexivity|].
  rewrite (H item (list_elem_of_here _ _)). apply IH.
  intros i Hin. apply H. now constructor.
Qed.

Lemma aggregate_entry taxes c items :
  dict_lookup (l_tax_breakdown (aggregate taxes items)) c
  = entry_after taxes c items None.
Proof. unfold aggregate. now rewrite breakdown_entry_after. Qed.

Lemma aggregate_entry_value taxes c items v :
  dict_lookup (l_tax_breakdown (aggregate taxes items)) c = Some v ->
  v = sum_taxes_of_code taxes c items.
Proof.
  rewrite aggregate_entry. intros H.
  now destruct (entry_after_value _ _ _ _ _ H) as [-> _].
Qed.

(** C5 (amended). For every committed sale, [tax_total] is the
    three-decimal rounding of the float sum of all the line taxes, and each
    value of [tax_breakdown] the three-decimal rounding of the float sum of
    the taxes of the lines under that code, both in input order. When the
    breakdown is empty [tax_total] is [0.0], and when it has one code its
    value is [tax_total] itself. *)
Theorem breakdown_and_tax_total_are_separate_sums (s : Sale.t) (db : DB) :
  Forall (known (product db)) (Sale.items s) ->
  let taxes := taxes_of db in
  exists rec bd,
    create_sale s db
    = (Ok (mkResponse "created"
             (mkTotals (Sale.subtotal rec) (Sale.tax_total rec) (Sale.total rec))),
       mkDB (stock_after (Sale.items s) (product db)) (taxrate db)
            (sale db ++ [mkDoc (next_id db) rec]) (S (next_id db)))
    /\ Sale.tax_breakdown rec = Some bd
    /\ Sale.tax_total rec = Float.round3 (sum_taxes taxes (Sale.items s))
    /\ (forall c v, dict_lookup bd c = Some v ->
          v = Float.round3 (sum_taxes_of_code taxes c (Sale.items s)))
    /\ (bd = [] -> Sale.tax_total rec = Float.zero)
    /\ (forall c v, bd = [(c, v)] -> v = Sale.tax_total rec).
Proof.
  intros Hall taxes.
  exists (sale_record s (aggregate taxes (Sale.items s))).
  eexists.
  rewrite (create_sale_known _ _ Hall).
  split; [reflexivity|]. split; [reflexivity|].
  assert (Htot : Sale.tax_total (sale_record s (aggregate taxes (Sale.items s)))
                 = Float.round3 (sum_taxes taxes (Sale.items s))).
  { simpl. now rewrite aggregate_tax_total. }
  split; [exact Htot|].
  assert (Hkeys : forall item c t,
            item ∈ Sale.items s -> taxed taxes item = Some (c, t) ->
            dict_lookup (l_tax_breakdown (aggregate taxes (Sale.items s))) c
            <> None).
  { intros item c t Hin E. rewrite aggregate_entry.
    exact (taxed_line_has_entry _ _ _ _ _ _ Hin E). }
  split.
  { intros c v. rewrite dict_lookup_map.
    destruct (dict_lookup (l_tax_breakdown (aggregate taxes (Sale.items s))) c)
      as [v0|] eqn:L; [|discriminate].
    simpl. intros [= <-]. f_equal. exact (aggregate_entry_value _ _ _ _ L). }
  split.
  - intros Hnil. rewrite Htot.
    rewrite sum_taxes_untaxed; [reflexivity|].
    intros item Hin. destruct (taxed taxes item) as [[c t]|] eqn:E; [|reflexivity].
    exfalso. apply (Hkeys item c t Hin E).
    destruct (l_tax_breakdown (aggregate taxes (Sale.items s))); [reflexivity|].
    discriminate.
  - intros c v Hone. rewrite Htot.
    destruct (l_tax_breakdown (aggregate taxes (Sale.items s)))
      as [|[c0 v0] [|]] eqn:Hraw; simpl in Hone; try discriminate.
    injection Hone as -> <-. f_equal.
    rewrite <- (sum_taxes_single_code taxes c).
    + apply aggregate_entry_value. rewrite Hraw. simpl.
      now rewrite String.eqb_refl.
    + intros item c' t Hin E. pose proof (Hkeys item c' t Hin E) as Hk.
      simpl in Hk. destruct (String.eqb c c') eqn:Ec; [|congruence].
      now apply String.eqb_eq in Ec.
Qed.

(** ** Stock after a committed sale *)

Lemma take_all_nil d : take_all [] d = d.
Proof. destruct d; reflexivity. Qed.

Lemma map_untouched id delta (c : list (Doc Product.t)) :
  id ∉ map _id c ->
  map (fun d => if Nat.eqb (_id d) id
                then mkDoc (_id d) (Product.inc_stock delta (body d)) else d) c
  = c.
Proof.
  induction c as [|d c IH]; intros H; simpl; [reflexivity|].
  simpl in H. apply not_elem_of_cons in H as [Hne Hc].
  destruct (Nat.eqb (_id d) id) eqn:E.
  - apply Nat.eqb_eq in E. congruence.
  - now rewrite IH.
Qed.

(** With identifiers that are unique, updating one document is a map over
    the collection. *)
Lemma update_one_inc_map id delta (c : list (Doc Product.t)) :
  NoDup (map _id c) ->
  update_one_inc id delta c
  = map (fun d => if Nat.eqb (_id d) id
                  then mkDoc (_id d) (Product.inc_stock delta (body d)) else d) c.
Proof.
  induction c as [|d c IH]; intros H; simpl; [reflexivity|].
  simpl in H. apply NoDup_cons in H as [Hd Hc].
  destruct (Nat.eqb (_id d) id) eqn:E.
  - apply Nat.eqb_eq in E. rewrite map_untouched; [reflexivity|congruence].
  - now rewrite IH.
Qed.

Lemma reduce_stock_ids c item : map _id (reduce_stock c item) = map _id c.
Proof.
  unfold reduce_stock.
  destruct (find_one_sku (SaleItem.sku item) c); [|reflexivity].
  apply update_one_inc_ids.
Qed.

Lemma sold_to_reduce c it id items :
  sold_to (reduce_stock c it) id items = sold_to c id items.
Proof.
  unfold sold_to.
  induction items as [|item items IH]; simpl; [reflexivity|].
  rewrite IH. f_equal.
  pose proof (find_one_sku_reduce (SaleItem.sku item) it c) as H.
  destruct (find_one_sku (SaleItem.sku item) (reduce_stock c it)),
           (find_one_sku (SaleItem.sku item) c); simpl in H;
    try discriminate; [|reflexivity].
  injection H as ->. reflexivity.
Qed.

(** After the lines of a sale, every product has lost the quantities of the
    lines that resolved to it, in input order. *)
Lemma stock_after_take_all items : forall c,
  NoDup (map _id c) ->
  stock_after items c = map (fun d => take_all (sold_to c (_id d) items) d) c.
Proof.
  induction items as [|item items IH]; intros c Hnd.
  - simpl. rewrite <- (map_id c) at 1. apply map_ext.
    intros d. now rewrite take_all_nil.
  - change (stock_after (item :: items) c)
      with (stock_after items (reduce_stock c item)).
    rewrite IH by (now rewrite reduce_stock_ids).
    unfold reduce_stock at 2.
    destruct (find_one_sku (SaleItem.sku item) c) as [prod|] eqn:E.
    + rewrite (update_one_inc_map _ _ _ Hnd), map_map.
      apply map_ext. intros d. rewrite sold_to_reduce.
      unfold sold_to at 2. simpl. rewrite E.
      destruct (Nat.eqb (_id d) (_id prod)) eqn:Ed.
      * simpl. rewrite Nat.eqb_sym, Ed. reflexivity.
      * rewrite Nat.eqb_sym, Ed. reflexivity.
    + apply map_ext. intros d. rewrite sold_to_reduce.
      unfold sold_to at 2. simpl. now rewrite E.
Qed.

(** X22. After a committed sale on a store whose product identifiers are
    unique, the stock of every product is its stock before the sale with
    the quantity of each line that resolved to it taken off, one float
    subtraction [stock + (-qty)] per line in input order, and nothing else
    about the products changes. *)
Lemma committed_sale_takes_quantities_off (s : Sale.t) (db : DB) :
  Forall (known (product db)) (Sale.items s) ->
  NoDup (map _id (product db)) ->
  exists r,
    (create_sale s db).1 = Ok r
    /\ product (create_sale s db).2
       = map (fun d => take_all (sold_to (product db) (_id d) (Sale.items s)) d)
             (product db)
    /\ stocks (product (create_sale s db).2)
       = map (fun d =>
                fold_left (fun st q => Float.add st (Float.neg q))
                  (sold_to (product db) (_id d) (Sale.items s))
                  (Product.stock (body d)))
             (product db).
Proof.
  intros Hall Hnd. rewrite (create_sale_known _ _ Hall). simpl.
  eexists. split; [reflexivity|].
  rewrite (stock_after_take_all _ _ Hnd). split; [reflexivity|].
  unfold stocks. rewrite map_map. apply map_ext. intros d.
  unfold take_all. simpl.
  generalize (body d). generalize (sold_to (product db) (_id d) (Sale.items s)).
  induction l as [|q l IHl]; intros p; simpl; [reflexivity|].
  now rewrite IHl.
Qed.

(** ** The default tax rates *)

Lemma tax_map_snoc docs t :
  tax_map (docs ++ [t]) = <[TaxRate.code t := t]> (tax_map docs).
Proof. unfold tax_map. now rewrite foldl_app. Qed.

Lemma taxes_of_create_document_taxrate d db :
  taxes_of (create_document_taxrate d db).2
  = <[TaxRate.code d := d]> (taxes_of db).
Proof.
  unfold taxes_of, create_document_taxrate. cbn [snd taxrate].
  rewrite map_app. apply tax_map_snoc.
Qed.

Lemma ensure_loop_taxes existing ds : forall created db,
  taxes_of (ensure_loop existing ds created db).2
  = foldl (fun m d => match existing !! TaxRate.code d with
                      | None => <[TaxRate.code d := d]> m
                      | Some _ => m
                      end) (taxes_of db) ds.
Proof.
  induction ds as [|d ds IH]; intros created db; [reflexivity|].
  cbn [ensure_loop foldl].
  destruct (existing !! TaxRate.code d) as [t|].
  - apply IH.
  - unfold bind.
    pose proof (taxes_of_create_document_taxrate d db) as H.
    destruct (create_document_taxrate d db) as [[[]|e] db'] eqn:E.
    + cbn [snd] in H. rewrite IH, H. reflexivity.
    + discriminate.
Qed.

(** [ensure_default_taxes] leaves every default code in the table: a rate
    already stored under the code stays, a missing one is created with the
    default's fields. *)
Lemma ensure_default_taxes_codes db d :
  d ∈ defaults ->
  taxes_of (ensure_default_taxes db).2 !! TaxRate.code d
  = Some (match taxes_of db !! TaxRate.code d with
          | Some t => t
          | None => d
          end).
Proof.
  intros Hd.
  unfold ensure_default_taxes, bind, get_documents_taxrate.
  rewrite ensure_loop_taxes. fold (taxes_of db).
  unfold defaults in *. cbn [foldl TaxRate.code].
  destruct (taxes_of db !! "TVA7"%string) as [t7|] eqn:E7;
    destruct (taxes_of db !! "TVA13"%string) as [t13|] eqn:E13;
    destruct (taxes_of db !! "TVA19"%string) as [t19|] eqn:E19;
    repeat (apply elem_of_cons in Hd as [->|Hd]); try (now inversion Hd);
    cbn [TaxRate.code]; simplify_map_eq; reflexivity.
Qed.

Lemma list_taxes_has_defaults db d :
  d ∈ defaults ->
  taxes_of (list_taxes db).2 !! TaxRate.code d <> None.
Proof.
  intros Hd. unfold list_taxes, bind.
  pose proof (ensure_default_taxes_codes db d Hd) as H.
  destruct (ensure_default_taxes db) as [[created|e] db'] eqn:E; simpl in *.
  - congruence.
  - congruence.
Qed.

(** C8. On the store that holds one product and no tax rate, which
    [create_product] yields from the empty store, [create_sale] commits a
    sale whose only line carries the code "TVA7": the tax table is
    still empty afterwards, and the sale is taxed [0.0]. Had [list_taxes]
    run first, the same request would carry the tax [0.35]. *)
Theorem sale_is_processed_without_default_taxes :
  Examples.untaxed_db
  = mkDB [mkDoc 0%nat Examples.milk] [] [] 1
  /\ (create_sale Examples.milk_only Examples.untaxed_db).1
     = Ok (mkResponse "created"
             (mkTotals (Float.of_Z 5) Float.zero (Float.of_Z 5)))
  /\ taxrate (create_sale Examples.milk_only Examples.untaxed_db).2 = []
  /\ (create_sale Examples.milk_only (list_taxes Examples.untaxed_db).2).1
     = Ok (mkResponse "created"
             (mkTotals (Float.of_Z 5) (Float.lit 35 100) (Float.lit 535 100))).
Proof. vm_compute. repeat split; reflexivity. Qed.

(** ** Signs of float results *)

Lemma iter_pos_invariant {A} (f : A -> A) (P : A -> Prop) :
  (forall x, P x -> P (f x)) -> forall p x, P x -> P (SpecFloat.iter_pos f p x).
Proof.
  intros Hf. induction p as [p IH|p IH|]; intros x Hx; simpl; auto.
Qed.

Lemma shr_1_nonneg mrs : 0 <= shr_m mrs -> 0 <= shr_m (shr_1 mrs).
Proof.
  destruct mrs as [m r s]. simpl.
  destruct m as [|[p|p|]|[p|p|]]; simpl; lia.
Qed.

Lemma shr_nonneg mrs e n : 0 <= shr_m mrs -> 0 <= shr_m (fst (shr mrs e n)).
Proof.
  intros H. unfold shr. destruct n; simpl; try exact H.
  apply iter_pos_invariant; [apply shr_1_nonneg|exact H].
Qed.

Lemma shr_fexp_nonneg m e l :
  0 <= m -> 0 <= shr_m (fst (shr_fexp Float.prec Float.emax m e l)).
Proof.
  intros H. unfold shr_fexp. apply shr_nonneg. destruct l as [|[]]; exact H.
Qed.

Lemma round_nearest_even_nonneg m l : 0 <= m -> 0 <= round_nearest_even m l.
Proof.
  intros H. unfold round_nearest_even.
  destruct l as [|[]]; try lia. destruct (Z.even m); lia.
Qed.

Lemma binary_round_aux_sign sx mx ex lx :
  0 <= mx ->
  match binary_round_aux Float.prec Float.emax sx mx ex lx with
  | S754_zero s | S754_infinity s | S754_finite s _ _ => s = sx
  | S754_nan => False
  end.
Proof.
  intros H. unfold binary_round_aux.
  pose proof (shr_fexp_nonneg mx ex lx H) as H1.
  destruct (shr_fexp Float.prec Float.emax mx ex lx) as [mrs' e'].
  simpl in H1.
  pose proof (shr_fexp_nonneg _ e' loc_Exact
                (round_nearest_even_nonneg _ (loc_of_shr_record mrs') H1)) as H2.
  destruct (shr_fexp Float.prec Float.emax
              (round_nearest_even (shr_m mrs') (loc_of_shr_record mrs')) e'
              loc_Exact) as [mrs'' e''].
  simpl in H2.
  destruct (shr_m mrs''); [reflexivity| |lia].
  destruct (e'' <=? Float.emax - Float.prec); reflexivity.
Qed.

Lemma binary_round_sign sx mx ex :
  match binary_round Float.prec Float.emax sx mx ex with
  | S754_zero s | S754_infinity s | S754_finite s _ _ => s = sx
  | S754_nan => False
  end.
Proof.
  unfold binary_round.
  destruct (shl_align mx ex _) as [mz ez].
  apply binary_round_aux_sign. lia.
Qed.

Lemma stock_sign x :
  Float.leb Float.zero x = true <->
  match x with
  | S754_zero _ => True
  | S754_infinity s | S754_finite s _ _ => s = false
  | S754_nan => False
  end.
Proof.
  destruct x as [s|s| |s m e]; try (destruct s); vm_compute; split; congruence || auto.
Qed.

Lemma binary_normalize_sign_ok d e :
  0 <= d -> Float.leb Float.zero (binary_normalize Float.prec Float.emax d e false) = true.
Proof.
  intros H. apply stock_sign. destruct d as [|p|p]; simpl; [exact I| |lia].
  pose proof (binary_round_sign false p e) as Hs.
  destruct (binary_round Float.prec Float.emax false p e); auto.
Qed.

Lemma shl_align_value m e k :
  k <= e -> Zpos (fst (shl_align m e k)) = Zpos m * 2 ^ (e - k).
Proof.
  intros H. unfold shl_align.
  destruct (k - e) as [|d|d] eqn:E.
  - assert (e - k = 0) as -> by lia. simpl. lia.
  - lia.
  - assert (e - k = Zpos d) as -> by lia. simpl.
    change (Pos.iter xO m d) with (shift_pos d m).
    rewrite shift_pos_correct.
    change (2 ^ Z.pos d) with (Z.pow_pos 2 d). apply Z.mul_comm.
Qed.

Lemma two_pow_pos k : (0 < two_pow k)%Q.
Proof.
  unfold two_pow. destruct (0 <=? k) eqn:E.
  - apply Z.leb_le in E. unfold Qlt. simpl.
    pose proof (Z.pow_pos_nonneg 2 k). lia.
  - reflexivity.
Qed.

Lemma to_Q_aligned m e k :
  k <= e ->
  (Float.to_Q (S754_finite false m e)
   == inject_Z (Zpos m * 2 ^ (e - k)) * two_pow k)%Q.
Proof.
  intros H. unfold Float.to_Q, two_pow.
  destruct (0 <=? e) eqn:Ee; destruct (0 <=? k) eqn:Ek;
    try apply Z.leb_le in Ee; try apply Z.leb_le in Ek;
    try apply Z.leb_gt in Ee; try apply Z.leb_gt in Ek; try lia.
  - rewrite <- inject_Z_mult. apply inject_Z_injective.
    rewrite <- Z.mul_assoc, <- Z.pow_add_r by lia. do 2 f_equal. lia.
  - unfold Qeq, Qmult, inject_Z. simpl.
    rewrite ?Pos.mul_1_l, !Z2Pos.id by (apply Z.pow_pos_nonneg; lia).
    replace (2 ^ (e - k)) with (2 ^ e * 2 ^ (- k))
      by (rewrite <- Z.pow_add_r by lia; f_equal; lia).
    lia.
  - unfold Qeq, Qmult, inject_Z. simpl.
    rewrite ?Pos.mul_1_l, !Z2Pos.id by (apply Z.pow_pos_nonneg; lia).
    replace (2 ^ (- k)) with (2 ^ (e - k) * 2 ^ (- e))
      by (rewrite <- Z.pow_add_r by lia; f_equal; lia).
    lia.
Qed.

Lemma to_Q_pos m e : (0 < Float.to_Q (S754_finite false m e))%Q.
Proof.
  rewrite (to_Q_aligned m e e) by lia.
  apply Qmult_lt_0_compat; [|apply two_pow_pos].
  unfold Qlt. simpl. rewrite Z.sub_diag. simpl. lia.
Qed.

Lemma to_Q_le_aligned mq eq mx ex :
  (Float.to_Q (S754_finite false mq eq) <= Float.to_Q (S754_finite false mx ex))%Q ->
  Zpos mq * 2 ^ (eq - Z.min ex eq) <= Zpos mx * 2 ^ (ex - Z.min ex eq).
Proof.
  rewrite (to_Q_aligned mq eq (Z.min ex eq)) by lia.
  rewrite (to_Q_aligned mx ex (Z.min ex eq)) by lia.
  intros H. apply Qmult_le_r in H; [|apply two_pow_pos].
  rewrite Zle_Qle. exact H.
Qed.

(** Taking off a finite quantity that the stock covers leaves a stock that
    is not negative. *)
Lemma add_neg_nonneg x q :
  Float.leb Float.zero x = true ->
  Float.is_finite q = true ->
  (Float.to_Q q <= Float.to_Q x)%Q ->
  Float.leb Float.zero (Float.add x (Float.neg q)) = true.
Proof.
  intros Hx Hq Hle. apply stock_sign in Hx.
  destruct x as [sx|sx| |sx mx ex]; try contradiction;
    destruct q as [sq|sq| |sq mq eq]; try discriminate; subst.
  - destruct sx, sq; reflexivity.
  - destruct sq; [reflexivity|].
    exfalso. pose proof (to_Q_pos mq eq) as Hp. simpl Float.to_Q in Hle at 2.
    apply (Qlt_not_le _ _ Hp Hle).
  - reflexivity.
  - reflexivity.
  - reflexivity.
  - unfold Float.add, Float.neg, SFopp, SFadd.
    apply binary_normalize_sign_ok.
    rewrite !shl_align_value by lia.
    destruct sq; simpl cond_Zopp.
    + pose proof (Z.pow_pos_nonneg 2 (ex - Z.min ex eq)).
      pose proof (Z.pow_pos_nonneg 2 (eq - Z.min ex eq)). nia.
    + pose proof (to_Q_le_aligned _ _ _ _ Hle). lia.
Qed.

Lemma find_one_sku_elem sku (c : list (Doc Product.t)) prod :
  find_one_sku sku c = Some prod -> prod ∈ c.
Proof.
  unfold find_one_sku. intros H. apply find_some in H as [H _].
  now apply list_elem_of_In.
Qed.

Lemma same_id_same_doc (c : list (Doc Product.t)) d1 d2 :
  NoDup (map _id c) -> d1 ∈ c -> d2 ∈ c -> _id d1 = _id d2 -> d1 = d2.
Proof.
  induction c as [|d c IH]; intros Hnd H1 H2 E.
  - inversion H1.
  - simpl in Hnd. apply NoDup_cons in Hnd as [Hd Hc].
    apply elem_of_cons in H1 as [->|H1]; apply elem_of_cons in H2 as [->|H2].
    + reflexivity.
    + exfalso. apply Hd. rewrite E. apply list_elem_of_fmap. eauto.
    + exfalso. apply Hd. rewrite <- E. apply list_elem_of_fmap. eauto.
    + now apply IH.
Qed.

Lemma reduce_stock_ok c item :
  NoDup (map _id c) ->
  Forall (fun d => stock_ok d = true) c ->
  match find_one_sku (SaleItem.sku item) c with
  | Some prod =>
      Float.is_finite (SaleItem.qty item) = true
      /\ (Float.to_Q (SaleItem.qty item)
          <= Float.to_Q (Product.stock (body prod)))%Q
  | None => True
  end ->
  Forall (fun d => stock_ok d = true) (reduce_stock c item).
Proof.
  intros Hnd Hok Hcov. unfold reduce_stock.
  destruct (find_one_sku (SaleItem.sku item) c) as [prod|] eqn:E; [|exact Hok].
  destruct Hcov as [Hfin Hle].
  rewrite (update_one_inc_map _ _ _ Hnd).
  apply Forall_forall. intros d' Hd'.
  apply list_elem_of_fmap in Hd' as (d & -> & Hd).
  rewrite Forall_forall in Hok.
  destruct (Nat.eqb (_id d) (_id prod)) eqn:Eid; [|now apply Hok].
  apply Nat.eqb_eq in Eid.
  assert (d = prod) as ->.
  { apply (same_id_same_doc c); auto. exact (find_one_sku_elem _ _ _ E). }
  unfold stock_ok. simpl. apply add_neg_nonneg; [|exact Hfin|exact Hle].
  now apply Hok.
Qed.

Lemma stock_after_ok items : forall c,
  NoDup (map _id c) ->
  Forall (fun d => stock_ok d = true) c ->
  covered items c ->
  Forall (fun d => stock_ok d = true) (stock_after items c).
Proof.
  induction items as [|item items IH]; intros c Hnd Hok Hcov.
  - exact Hok.
  - destruct Hcov as [Hitem Hrest].
    change (stock_after (item :: items) c)
      with (stock_after items (reduce_stock c item)).
    apply IH.
    + now rewrite reduce_stock_ids.
    + now apply reduce_stock_ok.
    + exact Hrest.
Qed.

(** C2 (amended). On a store whose product identifiers are unique and whose
    stocks are not negative, a sale with every SKU in the catalog, in which
    every line's quantity is finite and at most the stock that its product
    has when the line is reached, is committed and leaves no stock
    negative. (The engine makes no such check itself: a quantity above the
    stock is committed all the same.) *)
Theorem covered_sale_keeps_stock_nonnegative (s : Sale.t) (db : DB) :
  Forall (known (product db)) (Sale.items s) ->
  NoDup (map _id (product db)) ->
  Forall (fun d => stock_ok d = true) (product db) ->
  covered (Sale.items s) (product db) ->
  exists r,
    (create_sale s db).1 = Ok r
    /\ Forall (fun d => stock_ok d = true) (product (create_sale s db).2).
Proof.
  intros Hall Hnd Hok Hcov. rewrite (create_sale_known _ _ Hall). simpl.
  eexists. split; [reflexivity|]. now apply stock_after_ok.
Qed.

(** ** The claims at sample requests *)

Lemma seeded_all_known (items : list SaleItem.t) :
  forallb (knownb (product Examples.seeded_db)) items = true ->
  Forall (known (product Examples.seeded_db)) items.
Proof.
  intros H. apply Forall_forall. intros item Hin.
  apply knownb_true. rewrite forallb_forall in H. apply H.
  now apply list_elem_of_In.
Qed.



(** C2, as stated, fails: the request is valid and is committed, and the
    stock of "MILK-1L", 100 before the sale of 101, is -1 after it. *)
Lemma oversell_leaves_negative_stock :
  Sale.valid Examples.oversell = true
  /\ Forall (known (product Examples.seeded_db)) (Sale.items Examples.oversell)
  /\ (exists r, (create_sale Examples.oversell Examples.seeded_db).1 = Ok r)
  /\ stocks (product Examples.seeded_db)
     = [Float.of_Z 100; Float.of_Z 200; Float.of_Z 50]
  /\ stocks (product (create_sale Examples.oversell Examples.seeded_db).2)
     = [Float.of_Z (-1); Float.of_Z 200; Float.of_Z 50]
  /\ Float.ltb (Float.of_Z (-1)) Float.zero = true
  /\ forallb (Float.leb Float.zero)
       (stocks (product (create_sale Examples.oversell Examples.seeded_db).2))
     = false.
Proof.
  split; [vm_compute; reflexivity|].
  split; [apply seeded_all_known; vm_compute; reflexivity|].
  split; [eexists; vm_compute; reflexivity|].
  repeat split; vm_compute; reflexivity.
Qed.

Lemma covered_sale_keeps_stock_nonnegative_witness :
  Forall (known (product Examples.seeded_db)) (Sale.items Examples.milk_and_bread)
  /\ NoDup (map _id (product Examples.seeded_db))
  /\ Forall (fun d => stock_ok d = true) (product Examples.seeded_db)
  /\ covered (Sale.items Examples.milk_and_bread) (product Examples.seeded_db)
  /\ exists r,
       (create_sale Examples.milk_and_bread Examples.seeded_db).1 = Ok r
       /\ Forall (fun d => stock_ok d = true)
            (product (create_sale Examples.milk_and_bread Examples.seeded_db).2).
Proof.
  assert (H1 : Forall (known (product Examples.seeded_db))
                 (Sale.items Examples.milk_and_bread)).
  { apply seeded_all_known. vm_compute. reflexivity. }
  assert (H2 : NoDup (map _id (product Examples.seeded_db))).
  { apply (bool_decide_unpack _). vm_compute. exact I. }
  assert (H3 : Forall (fun d => stock_ok d = true) (product Examples.seeded_db)).
  { apply (bool_decide_unpack _). vm_compute. exact I. }
  assert (H4 : covered (Sale.items Examples.milk_and_bread)
                 (product Examples.seeded_db)).
  { vm_compute. repeat split; try reflexivity; intros H; discriminate H. }
  split; [exact H1|]. split; [exact H2|]. split; [exact H3|]. split; [exact H4|].
  exact (covered_sale_keeps_stock_nonnegative
           Examples.milk_and_bread Examples.seeded_db H1 H2 H3 H4).
Defined.

(** The request that sells 101 of a stock of 100 is not covered. *)
Example oversell_is_not_covered :
  ~ covered (Sale.items Examples.oversell) (product Examples.seeded_db).
Proof.
  intros [[_ H] _]. vm_compute in H. apply H. reflexivity.
Qed.

(** C3, as stated, fails: for one line of 1 x 0.350 under the 7% rate the
    record holds subtotal 0.35, tax total 0.025 (0.0245 rounded) and total
    0.374 (0.3745 rounded), while 0.35 + 0.025 is 0.375: the rounded
    subtotal and tax total add up to one thousandth more than the total,
    and [(subtotal + tax_total) - total > 0.001] evaluates to true. *)
Lemma rounded_fields_do_not_add_up :
  Sale.valid Examples.small_taxed = true
  /\ Forall (known (product Examples.seeded_db)) (Sale.items Examples.small_taxed)
  /\ exists rec,
       map body (sale (create_sale Examples.small_taxed Examples.seeded_db).2)
       = [rec]
       /\ (create_sale Examples.small_taxed Examples.seeded_db).1
          = Ok (mkResponse "created"
                  (mkTotals (Sale.subtotal rec) (Sale.tax_total rec)
                     (Sale.total rec)))
       /\ Sale.subtotal rec = Float.lit 350 1000
       /\ Sale.tax_total rec = Float.lit 25 1000
       /\ Sale.total rec = Float.lit 374 1000
       /\ Float.round3 (Float.add (Sale.subtotal rec) (Sale.tax_total rec))
          = Float.lit 375 1000
       /\ Float.round3 (Float.add (Sale.subtotal rec) (Sale.tax_total rec))
          <> Sale.total rec
       /\ Float.ltb (Float.lit 1 1000)
            (Float.add (Float.add (Sale.subtotal rec) (Sale.tax_total rec))
               (Float.neg (Sale.total rec)))
          = true.
Proof.
  split; [vm_compute; reflexivity|].
  split; [apply seeded_all_known; vm_compute; reflexivity|].
  eexists. split; [vm_compute; reflexivity|].
  repeat split; try (vm_compute; reflexivity); vm_compute; discriminate.
Qed.

Lemma totals_are_rounded_once_witness :
  Forall (known (product Examples.seeded_db)) (Sale.items Examples.milk_and_bread)
  /\ exists rec,
       create_sale Examples.milk_and_bread Examples.seeded_db
       = (Ok (mkResponse "created"
                (mkTotals (Sale.subtotal rec) (Sale.tax_total rec)
                   (Sale.total rec))),
          mkDB (stock_after (Sale.items Examples.milk_and_bread)
                  (product Examples.seeded_db))
               (taxrate Examples.seeded_db)
               (sale Examples.seeded_db
                ++ [mkDoc (next_id Examples.seeded_db) rec])
               (S (next_id Examples.seeded_db)))
       /\ Sale.subtotal rec
          = Float.round3 (sum_amounts (Sale.items Examples.milk_and_bread))
       /\ Sale.tax_total rec
          = Float.round3 (sum_taxes (taxes_of Examples.seeded_db)
                            (Sale.items Examples.milk_and_bread))
       /\ Sale.total rec
          = Float.round3
              (Float.add (sum_amounts (Sale.items Examples.milk_and_bread))
                 (sum_taxes (taxes_of Examples.seeded_db)
                    (Sale.items Examples.milk_and_bread))).
Proof.
  assert (H : Forall (known (product Examples.seeded_db))
                (Sale.items Examples.milk_and_bread)).
  { apply seeded_all_known. vm_compute. reflexivity. }
  split; [exact H|].
  exact (totals_are_rounded_once Examples.milk_and_bread Examples.seeded_db H).
Defined.

(** The worked example of the specification: subtotal 5.600, tax total
    0.392 under the single code "TVA7", total 5.992. *)
Example milk_and_bread_totals :
  (create_sale Examples.milk_and_bread Examples.seeded_db).1
  = Ok (mkResponse "created"
          (mkTotals (Float.lit 5600 1000) (Float.lit 392 1000)
             (Float.lit 5992 1000)))
  /\ map (fun d => Sale.tax_breakdown (body d))
       (sale (create_sale Examples.milk_and_bread Examples.seeded_db).2)
     = [Some [("TVA7"%string, Float.lit 392 1000)]].
Proof. vm_compute. split; reflexivity. Qed.

Lemma untaxed_line_counts_in_subtotal_only_witness :
  let s := Examples.with_items_untaxed in
  let db := Examples.seeded_db in
  let pre := [Examples.line "MILK-1L" (Float.of_Z 2) (Float.lit 5 2) (Some "TVA7")] in
  let item := Examples.line "BREAD-STD" (Float.of_Z 1) (Float.lit 6 10) (Some "TVA5") in
  let post := [Examples.line "SHMP-250" (Float.of_Z 1) (Float.lit 89 10) None] in
  Sale.items s = pre ++ item :: post
  /\ Forall (known (product db)) (Sale.items s)
  /\ (SaleItem.tax_code item = None
      \/ exists c, SaleItem.tax_code item = Some c /\ taxes_of db !! c = None)
  /\ let taxes := taxes_of db in
     let before := aggregate taxes pre in
     exists rec bd,
       create_sale s db
       = (Ok (mkResponse "created"
                (mkTotals (Sale.subtotal rec) (Sale.tax_total rec)
                   (Sale.total rec))),
          mkDB (stock_after (Sale.items s) (product db)) (taxrate db)
               (sale db ++ [mkDoc (next_id db) rec]) (S (next_id db)))
       /\ add_line taxes before item
          = mkLocals (Float.add (l_subtotal before)
                        (Float.mul (SaleItem.qty item) (SaleItem.unit_price item)))
                     (l_tax_total before) (l_tax_breakdown before)
       /\ Sale.subtotal rec
          = Float.round3
              (fold_left (fun a i => Float.add a (line_amount i)) post
                 (Float.add (sum_amounts pre)
                    (Float.mul (SaleItem.qty item) (SaleItem.unit_price item))))
       /\ Sale.tax_total rec = Float.round3 (sum_taxes taxes (pre ++ post))
       /\ Sale.tax_breakdown rec = Some bd
       /\ Sale.tax_breakdown
            (sale_record s (aggregate taxes (pre ++ post))) = Some bd
       /\ forall c, SaleItem.tax_code item = Some c -> dict_lookup bd c = None.
Proof.
  intros s db pre item post.
  assert (H1 : Sale.items s = pre ++ item :: post) by reflexivity.
  assert (H2 : Forall (known (product db)) (Sale.items s)).
  { apply seeded_all_known. vm_compute. reflexivity. }
  assert (H3 : SaleItem.tax_code item = None
               \/ exists c, SaleItem.tax_code item = Some c
                            /\ taxes_of db !! c = None).
  { right. exists "TVA5"%string. split; [reflexivity|]. vm_compute. reflexivity. }
  split; [exact H1|]. split; [exact H2|]. split; [exact H3|].
  exact (untaxed_line_counts_in_subtotal_only s db pre post item H1 H2 H3).
Defined.

(** C5, as stated, fails: on this committed sale the breakdown holds two
    codes, 190000000000000.0 under "TVA19" and 1.4 under "TVA7", while
    [tax_total] is 190000000000001.375; the values add up to more than
    0.024 above [tax_total], past the tolerance of 0.002. *)
Lemma breakdown_sum_misses_tax_total :
  Sale.valid Examples.two_codes = true
  /\ Forall (known (product Examples.seeded_db)) (Sale.items Examples.two_codes)
  /\ (exists r, (create_sale Examples.two_codes Examples.seeded_db).1 = Ok r)
  /\ exists rec,
       map body (sale (create_sale Examples.two_codes Examples.seeded_db).2)
       = [rec]
       /\ Sale.tax_breakdown rec
          = Some [("TVA19"%string, Float.of_Z 190000000000000);
                  ("TVA7"%string, Float.lit 14 10)]
       /\ Sale.tax_total rec = Float.lit 1520000000000011 8
       /\ (24 # 1000
           < sum_values [("TVA19"%string, Float.of_Z 190000000000000);
                         ("TVA7"%string, Float.lit 14 10)]
             - Float.to_Q (Sale.tax_total rec))%Q
       /\ within_tolerance rec = false.
Proof.
  split; [vm_compute; reflexivity|].
  split; [apply seeded_all_known; vm_compute; reflexivity|].
  split; [eexists; vm_compute; reflexivity|].
  eexists. split; [vm_compute; reflexivity|].
  repeat split; vm_compute; reflexivity.
Qed.

Lemma breakdown_and_tax_total_are_separate_sums_witness :
  Forall (known (product Examples.seeded_db)) (Sale.items Examples.two_codes)
  /\ let s := Examples.two_codes in
     let db := Examples.seeded_db in
     let taxes := taxes_of db in
     exists rec bd,
       create_sale s db
       = (Ok (mkResponse "created"
                (mkTotals (Sale.subtotal rec) (Sale.tax_total rec)
                   (Sale.total rec))),
          mkDB (stock_after (Sale.items s) (product db)) (taxrate db)
               (sale db ++ [mkDoc (next_id db) rec]) (S (next_id db)))
       /\ Sale.tax_breakdown rec = Some bd
       /\ Sale.tax_total rec = Float.round3 (sum_taxes taxes (Sale.items s))
       /\ (forall c v, dict_lookup bd c = Some v ->
             v = Float.round3 (sum_taxes_of_code taxes c (Sale.items s)))
       /\ (bd = [] -> Sale.tax_total rec = Float.zero)
       /\ (forall c v, bd = [(c, v)] -> v = Sale.tax_total rec).
Proof.
  assert (H : Forall (known (product Examples.seeded_db))
                (Sale.items Examples.two_codes)).
  { apply seeded_all_known. vm_compute. reflexivity. }
  split; [exact H|].
  exact (breakdown_and_tax_total_are_separate_sums
           Examples.two_codes Examples.seeded_db H).
Defined.

(** C6, as stated, fails: the second request is the first with its first
    line moved to the end; every SKU is in the catalog and both sales are
    committed, the first with subtotal and total 3.918 and the second with
    3.917. *)
Lemma permuted_lines_change_totals :
  Permutation (Sale.items Examples.by_weight)
              (Sale.items Examples.by_weight_permuted)
  /\ Sale.valid Examples.by_weight = true
  /\ Forall (known (product Examples.seeded_db)) (Sale.items Examples.by_weight)
  /\ (create_sale Examples.by_weight Examples.seeded_db).1
     = Ok (mkResponse "created"
             (mkTotals (Float.lit 3918 1000) Float.zero (Float.lit 3918 1000)))
  /\ (create_sale Examples.by_weight_permuted Examples.seeded_db).1
     = Ok (mkResponse "created"
             (mkTotals (Float.lit 3917 1000) Float.zero (Float.lit 3917 1000)))
  /\ Float.lit 3918 1000 <> Float.lit 3917 1000.
Proof.
  split.
  { unfold Examples.by_weight, Examples.by_weight_permuted, Examples.request.
    simpl. apply (Permutation_cons_append [_; _]). }
  split; [vm_compute; reflexivity|].
  split; [apply seeded_all_known; vm_compute; reflexivity|].
  split; [vm_compute; reflexivity|].
  split; [vm_compute; reflexivity|].
  vm_compute. discriminate.
Qed.

Lemma swapping_first_two_lines_keeps_totals_witness :
  let s := Examples.by_weight in
  let db := Examples.seeded_db in
  let a := Examples.line "MILK-1L" (Float.of_Z 1) (Float.lit 1057 1000) None in
  let b := Examples.line "BREAD-STD" (Float.of_Z 3) (Float.lit 1 10) None in
  let rest := [Examples.line "SHMP-250" (Float.lit 3 2) (Float.lit 1707 1000) None] in
  Sale.items s = a :: b :: rest
  /\ Forall (known (product db)) (Sale.items s)
  /\ exists t rec rec' db1 db2,
       create_sale s db = (Ok (mkResponse "created" t), db1)
       /\ create_sale (with_items s (b :: a :: rest)) db
          = (Ok (mkResponse "created" t), db2)
       /\ sale db1 = sale db ++ [mkDoc (next_id db) rec]
       /\ sale db2 = sale db ++ [mkDoc (next_id db) rec']
       /\ Sale.subtotal rec = Sale.subtotal rec'
       /\ Sale.subtotal rec = t_subtotal t
       /\ Sale.tax_total rec = Sale.tax_total rec'
       /\ Sale.tax_total rec = t_tax_total t
       /\ Sale.total rec = Sale.total rec' /\ Sale.total rec = t_total t.
Proof.
  intros s db a b rest.
  assert (H1 : Sale.items s = a :: b :: rest) by reflexivity.
  assert (H2 : Forall (known (product db)) (Sale.items s)).
  { apply seeded_all_known. vm_compute. reflexivity. }
  split; [exact H1|]. split; [exact H2|].
  exact (swapping_first_two_lines_keeps_totals s db a b rest H1 H2).
Defined.

Lemma client_totals_are_ignored_witness :
  Sale.items Examples.milk_and_bread = Sale.items Examples.forged
  /\ Sale.customer_name Examples.milk_and_bread = Sale.customer_name Examples.forged
  /\ Sale.payment Examples.milk_and_bread = Sale.payment Examples.forged
  /\ Sale.user Examples.milk_and_bread = Sale.user Examples.forged
  /\ Sale.timestamp Examples.milk_and_bread = Sale.timestamp Examples.forged
  /\ create_sale Examples.milk_and_bread Examples.seeded_db
     = create_sale Examples.forged Examples.seeded_db.
Proof.
  repeat (split; [reflexivity|]).
  apply (client_totals_are_ignored Examples.milk_and_bread Examples.forged
           Examples.seeded_db); reflexivity.
Defined.

Lemma empty_sale_is_committed_with_zero_totals_witness :
  Sale.items Examples.empty_request = []
  /\ create_sale Examples.empty_request Examples.seeded_db
     = (Ok (mkResponse "created" (mkTotals Float.zero Float.zero Float.zero)),
        mkDB (product Examples.seeded_db) (taxrate Examples.seeded_db)
          (sale Examples.seeded_db
           ++ [mkDoc (next_id Examples.seeded_db)
                 (Sale.mk [] (Sale.customer_name Examples.empty_request)
                    Float.zero Float.zero Float.zero (Some [])
                    (Sale.payment Examples.empty_request)
                    (Sale.user Examples.empty_request)
                    (Sale.timestamp Examples.empty_request))])
          (S (next_id Examples.seeded_db))).
Proof.
  split; [reflexivity|].
  apply (empty_sale_is_committed_with_zero_totals Examples.empty_request
           Examples.seeded_db). reflexivity.
Defined.

(** ** [create_product] *)

Lemma count_sku_find sku (c : list (Doc Product.t)) :
  (0 <? length (filter (fun d => String.eqb (Product.sku (body d)) sku) c))%nat
  = false
  <-> find_one_sku sku c = None.
Proof.
  unfold find_one_sku.
  induction c as [|d c IH]; simpl.
  - split; reflexivity.
  - rewrite filter_cons.
    destruct (String.eqb (Product.sku (body d)) sku) eqn:E; simpl.
    + split; discriminate.
    + exact IH.
Qed.

Lemma create_product_taken p db :
  find_one_sku (Product.sku p) (product db) <> None ->
  create_product p db = (Raise (mkHTTPException 400 "SKU already exists"), db).
Proof.
  intros H. unfold create_product, bind, count_documents_sku.
  destruct (0 <? _)%nat eqn:E; [reflexivity|].
  apply count_sku_find in E. contradiction.
Qed.

Lemma create_product_fresh p db :
  find_one_sku (Product.sku p) (product db) = None ->
  create_product p db
  = (Ok "created"%string,
     mkDB (product db ++ [mkDoc (next_id db) p]) (taxrate db) (sale db)
          (S (next_id db))).
Proof.
  intros H. unfold create_product, bind, count_documents_sku.
  apply count_sku_find in H. rewrite H. reflexivity.
Qed.

Lemma find_one_sku_app sku (c c' : list (Doc Product.t)) :
  find_one_sku sku (c ++ c')
  = match find_one_sku sku c with
    | Some d => Some d
    | None => find_one_sku sku c'
    end.
Proof.
  unfold find_one_sku. induction c as [|d c IH]; simpl; [reflexivity|].
  destruct (String.eqb (Product.sku (body d)) sku); [reflexivity|exact IH].
Qed.

Lemma find_one_sku_None_skus sku (c : list (Doc Product.t)) :
  find_one_sku sku c = None <-> sku ∉ skus c.
Proof.
  unfold find_one_sku, skus. induction c as [|d c IH]; simpl.
  - split; [intros _; apply not_elem_of_nil|reflexivity].
  - rewrite not_elem_of_cons.
    destruct (String.eqb (Product.sku (body d)) sku) eqn:E.
    + apply String.eqb_eq in E. split; [discriminate|]. intros [H _]. congruence.
    + apply String.eqb_neq in E. rewrite IH. split; [|tauto].
      intros H. split; [congruence|exact H].
Qed.

(** X1. [create_product] raises exactly when a product with the SKU is
    already stored; the exception is then the 400 "SKU already exists" and
    the store is left as it was. *)
Theorem create_product_raises_iff_sku_taken (p : Product.t) (db : DB) :
  (find_one_sku (Product.sku p) (product db) <> None
   <-> exists e, (create_product p db).1 = Raise e)
  /\ forall e, (create_product p db).1 = Raise e ->
       e = mkHTTPException 400 "SKU already exists"
       /\ (create_product p db).2 = db.
Proof.
  destruct (find_one_sku (Product.sku p) (product db)) as [d|] eqn:E.
  - rewrite create_product_taken by congruence. simpl. split.
    + split; [eauto|discriminate].
    + intros e [= <-]. auto.
  - rewrite (create_product_fresh _ _ E). simpl. split.
    + split; [congruence|]. intros [e He]. discriminate.
    + intros e He. discriminate.
Qed.

(** X2. [create_product] with a SKU that no stored product has returns
    "created" whatever the price and stock are; the product is then found
    under its SKU, exactly as it was given and under the fresh identifier,
    every other SKU finds what it found before, the listing is the earlier
    one with the product at the end, and a second [create_product] with
    the same SKU is refused. *)
Theorem create_product_then_find (p : Product.t) (db : DB) :
  find_one_sku (Product.sku p) (product db) = None ->
  let db' := (create_product p db).2 in
  (create_product p db).1 = Ok "created"%string
  /\ find_one_sku (Product.sku p) (product db')
     = Some (mkDoc (next_id db) p)
  /\ (forall sku, sku <> Product.sku p ->
        find_one_sku sku (product db') = find_one_sku sku (product db))
  /\ (list_products db').1 = Ok (map body (product db) ++ [p])
  /\ taxrate db' = taxrate db
  /\ sale db' = sale db
  /\ forall p', Product.sku p' = Product.sku p ->
       create_product p' db'
       = (Raise (mkHTTPException 400 "SKU already exists"), db').
Proof.
  intros H db'. subst db'. rewrite (create_product_fresh _ _ H). simpl.
  assert (Hfound : find_one_sku (Product.sku p)
                     (product db ++ [mkDoc (next_id db) p])
                   = Some (mkDoc (next_id db) p)).
  { rewrite find_one_sku_app, H. unfold find_one_sku. simpl.
    now rewrite String.eqb_refl. }
  split; [reflexivity|]. split; [exact Hfound|]. split.
  { intros sku Hne. rewrite find_one_sku_app.
    destruct (find_one_sku sku (product db)); [reflexivity|].
    unfold find_one_sku. simpl.
    destruct (String.eqb (Product.sku p) sku) eqn:E; [|reflexivity].
    apply String.eqb_eq in E. congruence. }
  split.
  { unfold list_products, get_documents_product. simpl.
    now rewrite map_app. }
  split; [reflexivity|]. split; [reflexivity|].
  intros p' Hp'. apply create_product_taken. simpl. rewrite Hp', Hfound.
  discriminate.
Qed.

Lemma create_product_then_find_witness :
  find_one_sku (Product.sku Examples.bread) (product Examples.untaxed_db) = None
  /\ let db' := (create_product Examples.bread Examples.untaxed_db).2 in
     (create_product Examples.bread Examples.untaxed_db).1 = Ok "created"%string
     /\ find_one_sku (Product.sku Examples.bread) (product db')
        = Some (mkDoc (next_id Examples.untaxed_db) Examples.bread)
     /\ (forall sku, sku <> Product.sku Examples.bread ->
           find_one_sku sku (product db')
           = find_one_sku sku (product Examples.untaxed_db))
     /\ (list_products db').1
        = Ok (map body (product Examples.untaxed_db) ++ [Examples.bread])
     /\ taxrate db' = taxrate Examples.untaxed_db
     /\ sale db' = sale Examples.untaxed_db
     /\ forall p', Product.sku p' = Product.sku Examples.bread ->
          create_product p' db'
          = (Raise (mkHTTPException 400 "SKU already exists"), db').
Proof.
  assert (H : find_one_sku (Product.sku Examples.bread)
                (product Examples.untaxed_db) = None)
    by (vm_compute; reflexivity).
  split; [exact H|].
  exact (create_product_then_find Examples.bread Examples.untaxed_db H).
Defined.

(** ** The tax table *)

Lemma tax_map_lookup_snoc docs t c :
  tax_map (docs ++ [t]) !! c
  = if String.eqb (TaxRate.code t) c then Some t else tax_map docs !! c.
Proof.
  rewrite tax_map_snoc.
  destruct (String.eqb (TaxRate.code t) c) eqn:E.
  - apply String.eqb_eq in E. subst c. apply lookup_insert_eq.
  - apply String.eqb_neq in E. now apply lookup_insert_ne.
Qed.

(** The table holds, under each code, the last document with that code. *)
Lemma tax_map_lookup_last docs c :
  tax_map docs !! c
  = last (List.filter (fun t => String.eqb (TaxRate.code t) c) docs).
Proof.
  induction docs as [|t docs IH] using rev_ind.
  - reflexivity.
  - rewrite tax_map_lookup_snoc, List.filter_app. simpl.
    destruct (String.eqb (TaxRate.code t) c).
    + now rewrite last_snoc.
    + now rewrite app_nil_r.
Qed.

Lemma tax_map_lookup_elem docs c t :
  tax_map docs !! c = Some t -> t ∈ docs /\ TaxRate.code t = c.
Proof.
  rewrite tax_map_lookup_last. intros H.
  apply last_Some_elem_of in H. apply list_elem_of_In in H.
  apply List.filter_In in H as [Hin E].
  split; [now apply list_elem_of_In|now apply String.eqb_eq].
Qed.

Lemma map_body_number_from {A : Type} (ds : list A) : forall n,
  map body (number_from n ds) = ds.
Proof.
  induction ds as [|d ds IH]; intros n; simpl; [reflexivity|].
  now rewrite IH.
Qed.

Lemma ensure_loop_run existing ds : forall created db,
  ensure_loop existing ds created db
  = let miss := List.filter (fun d => match existing !! TaxRate.code d with
                                      | Some _ => false
                                      | None => true
                                      end) ds in
    (Ok (created ++ miss),
     mkDB (product db) (taxrate db ++ number_from (next_id db) miss) (sale db)
          (next_id db + length miss)).
Proof.
  induction ds as [|d ds IH]; intros created db.
  - simpl. unfold ret. rewrite !app_nil_r, Nat.add_0_r. now destruct db.
  - cbn [ensure_loop List.filter].
    destruct (existing !! TaxRate.code d) as [t|].
    + apply IH.
    + unfold bind, create_document_taxrate. rewrite IH. cbn zeta.
      cbn [product taxrate sale next_id number_from length].
      rewrite <- !app_assoc. simpl. f_equal. f_equal. lia.
Qed.

Lemma ensure_default_taxes_run db :
  ensure_default_taxes db
  = (Ok (missing_defaults db),
     mkDB (product db)
          (taxrate db ++ number_from (next_id db) (missing_defaults db))
          (sale db) (next_id db + length (missing_defaults db))).
Proof.
  unfold ensure_default_taxes, bind, get_documents_taxrate.
  rewrite ensure_loop_run. reflexivity.
Qed.

Lemma missing_defaults_after db :
  missing_defaults (ensure_default_taxes db).2 = [].
Proof.
  unfold missing_defaults.
  assert (H : forall d, d ∈ defaults ->
                match taxes_of (ensure_default_taxes db).2 !! TaxRate.code d with
                | Some _ => false
                | None => true
                end = false).
  { intros d Hd. now rewrite (ensure_default_taxes_codes db d Hd). }
  revert H. generalize defaults. intros l H.
  induction l as [|d l IH]; [reflexivity|].
  simpl. rewrite (H d (list_elem_of_here _ _)). apply IH.
  intros d' Hd'. apply H. now constructor.
Qed.

Lemma ensure_default_taxes_again db :
  ensure_default_taxes (ensure_default_taxes db).2
  = (Ok [], (ensure_default_taxes db).2).
Proof.
  rewrite (ensure_default_taxes_run (ensure_default_taxes db).2).
  rewrite missing_defaults_after. simpl.
  rewrite app_nil_r, Nat.add_0_r.
  now destruct ((ensure_default_taxes db).2).
Qed.

(** X3. [ensure_default_taxes] never raises; it returns the defaults whose
    code no stored rate has, in the order 7%, 13%, 19%, and appends exactly
    these to the tax rates, leaving the stored rates, the products and the
    sales as they were. Afterwards every default code is in the table: with
    the rate that was stored under it, if any, and with the default's own
    fields otherwise. *)
Theorem ensure_default_taxes_creates_missing (db : DB) :
  ensure_default_taxes db
  = (Ok (missing_defaults db),
     mkDB (product db)
          (taxrate db ++ number_from (next_id db) (missing_defaults db))
          (sale db) (next_id db + length (missing_defaults db)))
  /\ (forall d, d ∈ missing_defaults db <->
                d ∈ defaults /\ taxes_of db !! TaxRate.code d = None)
  /\ forall d, d ∈ defaults ->
       taxes_of (ensure_default_taxes db).2 !! TaxRate.code d
       = Some (match taxes_of db !! TaxRate.code d with
               | Some t => t
               | None => d
               end).
Proof.
  split; [apply ensure_default_taxes_run|]. split.
  - intros d. unfold missing_defaults.
    rewrite !list_elem_of_In, List.filter_In.
    destruct (taxes_of db !! TaxRate.code d); split; intros [H1 H2];
      split; auto; discriminate.
  - apply ensure_default_taxes_codes.
Qed.

(** X4. [ensure_default_taxes] is idempotent: run a second time it creates
    nothing, returns the empty list and leaves the store as the first run
    left it. *)
Theorem ensure_default_taxes_idempotent (db : DB) :
  ensure_default_taxes (ensure_default_taxes db).2
  = (Ok [], (ensure_default_taxes db).2).
Proof. apply ensure_default_taxes_again. Qed.

Lemma list_taxes_run db :
  (list_taxes db).1 = Ok (map body (taxrate db) ++ missing_defaults db)
  /\ (list_taxes db).2 = (ensure_default_taxes db).2.
Proof.
  unfold list_taxes, bind. rewrite ensure_default_taxes_run.
  unfold get_documents_taxrate. simpl.
  now rewrite map_app, map_body_number_from.
Qed.

(** X5. [list_taxes] never raises and returns the stored rates, in order,
    followed by the defaults it had to create; the list has a rate under
    each of the three default codes, and a second [list_taxes] returns the
    same list and changes nothing. *)
Theorem list_taxes_lists_stored_then_created (db : DB) :
  let listed := map body (taxrate db) ++ missing_defaults db in
  (list_taxes db).1 = Ok listed
  /\ (list_taxes db).2 = (ensure_default_taxes db).2
  /\ (forall d, d ∈ defaults ->
        exists t, t ∈ listed /\ TaxRate.code t = TaxRate.code d)
  /\ list_taxes (list_taxes db).2 = (Ok listed, (list_taxes db).2).
Proof.
  intros listed.
  assert (Hrun : list_taxes db = (Ok listed, (ensure_default_taxes db).2)).
  { unfold list_taxes, bind. rewrite ensure_default_taxes_run.
    unfold get_documents_taxrate. simpl.
    now rewrite map_app, map_body_number_from. }
  rewrite Hrun. simpl. split; [reflexivity|]. split; [reflexivity|]. split.
  - intros d Hd. pose proof (ensure_default_taxes_codes db d Hd) as H.
    apply tax_map_lookup_elem in H as [Hin Hc].
    eexists. split; [|exact Hc].
    rewrite ensure_default_taxes_run in Hin. simpl in Hin.
    now rewrite map_app, map_body_number_from in Hin.
  - unfold list_taxes at 1, bind. rewrite ensure_default_taxes_again.
    unfold get_documents_taxrate. f_equal. f_equal.
    rewrite ensure_default_taxes_run. simpl.
    now rewrite map_app, map_body_number_from.
Qed.

Lemma default_code_not_empty d : d ∈ defaults -> TaxRate.code d <> ""%string.
Proof.
  unfold defaults. intros Hd.
  repeat (apply elem_of_cons in Hd as [->|Hd]); try discriminate.
  inversion Hd.
Qed.

(** X6. After [list_taxes], a sale line that carries one of the three
    default codes resolves to a rate, and its tax is its amount times that
    rate: the rate that was stored under the code before, if any, otherwise
    the default one (0.07, 0.13 or 0.19). *)
Theorem default_codes_resolve_after_list_taxes
    (db : DB) (d : TaxRate.t) (item : SaleItem.t) :
  d ∈ defaults ->
  SaleItem.tax_code item = Some (TaxRate.code d) ->
  let t := match taxes_of db !! TaxRate.code d with
           | Some t => t
           | None => d
           end in
  taxed (taxes_of (list_taxes db).2) item = Some (TaxRate.code d, t)
  /\ line_tax (taxes_of (list_taxes db).2) item
     = Some (Float.mul (Float.mul (SaleItem.qty item) (SaleItem.unit_price item))
                       (TaxRate.rate t)).
Proof.
  intros Hd Hc t.
  assert (E : taxed (taxes_of (list_taxes db).2) item = Some (TaxRate.code d, t)).
  { unfold taxed. rewrite Hc.
    pose proof (default_code_not_empty d Hd) as Hne.
    apply String.eqb_neq in Hne. rewrite Hne.
    destruct (list_taxes_run db) as [_ ->].
    now rewrite (ensure_default_taxes_codes db d Hd). }
  split; [exact E|]. unfold line_tax. now rewrite E.
Qed.

Lemma default_codes_resolve_after_list_taxes_witness :
  let d := TaxRate.mk "TVA 7%" (Float.lit 7 100) "TVA7" false in
  let item := Examples.line "MILK-1L" (Float.of_Z 2) (Float.lit 5 2) (Some "TVA7") in
  let db := Examples.untaxed_db in
  d ∈ defaults
  /\ SaleItem.tax_code item = Some (TaxRate.code d)
  /\ let t := match taxes_of db !! TaxRate.code d with
              | Some t => t
              | None => d
              end in
     taxed (taxes_of (list_taxes db).2) item = Some (TaxRate.code d, t)
     /\ line_tax (taxes_of (list_taxes db).2) item
        = Some (Float.mul
                  (Float.mul (SaleItem.qty item) (SaleItem.unit_price item))
                  (TaxRate.rate t)).
Proof.
  intros d item db.
  assert (H1 : d ∈ defaults) by apply list_elem_of_here.
  assert (H2 : SaleItem.tax_code item = Some (TaxRate.code d)) by reflexivity.
  split; [exact H1|]. split; [exact H2|].
  exact (default_codes_resolve_after_list_taxes db d item H1 H2).
Defined.

(** X7. The rate a sale applies to a line is the last stored rate that has
    the line's code: of two rates stored under one code the later one
    wins, and a line with no code, or with the empty code, has none. *)
Theorem last_rate_with_the_code_applies (db : DB) (item : SaleItem.t) :
  taxed (taxes_of db) item
  = match SaleItem.tax_code item with
    | Some c =>
        if String.eqb c "" then None
        else match last (List.filter (fun t => String.eqb (TaxRate.code t) c)
                           (map body (taxrate db))) with
             | Some t => Some (c, t)
             | None => None
             end
    | None => None
    end.
Proof.
  unfold taxed, taxes_of.
  destruct (SaleItem.tax_code item) as [c|]; [|reflexivity].
  now rewrite tax_map_lookup_last.
Qed.

(** ** More on [create_sale] *)

Lemma erase_stock_update id delta (c : list (Doc Product.t)) :
  map erase_stock (update_one_inc id delta c) = map erase_stock c.
Proof.
  induction c as [|d c IH]; simpl; [reflexivity|].
  destruct (Nat.eqb (_id d) id); simpl; [reflexivity|].
  now rewrite IH.
Qed.

Lemma erase_stock_after items : forall c,
  map erase_stock (stock_after items c) = map erase_stock c.
Proof.
  induction items as [|item items IH]; intros c; [reflexivity|].
  change (stock_after (item :: items) c)
    with (stock_after items (reduce_stock c item)).
  rewrite IH. unfold reduce_stock.
  destruct (find_one_sku (SaleItem.sku item) c); [|reflexivity].
  apply erase_stock_update.
Qed.

(** What [create_sale] does to the store, in its two outcomes. *)
Lemma create_sale_cases s db :
  (Forall (known (product db)) (Sale.items s)
   /\ create_sale s db
      = (Ok (created s (aggregate (taxes_of db) (Sale.items s))),
         committed s db (aggregate (taxes_of db) (Sale.items s))))
  \/ exists pre bad post,
       Sale.items s = pre ++ bad :: post
       /\ Forall (known (product db)) pre
       /\ find_one_sku (SaleItem.sku bad) (product db) = None
       /\ create_sale s db
          = (Raise (unknown_sku bad),
             set_product db (stock_after pre (product db))).
Proof.
  destruct (first_unknown (product db) (Sale.items s))
    as [Hall|(pre & bad & post & E & Hpre & Hbad)].
  - left. split; [exact Hall|]. now apply create_sale_known.
  - right. exists pre, bad, post. repeat split; try assumption.
    now apply (create_sale_unknown s db pre bad post).
Qed.

Lemma create_sale_keeps_catalog s db :
  map erase_stock (product (create_sale s db).2) = map erase_stock (product db)
  /\ taxrate (create_sale s db).2 = taxrate db.
Proof.
  destruct (create_sale_cases s db) as [[_ ->]|(pre & bad & post & _ & _ & _ & ->)];
    simpl; split; auto using erase_stock_after.
Qed.

(** X8. Whether it commits or raises, [create_sale] changes nothing of the
    products but their stock: the same documents stand in the same order
    with the same identifier, SKU, name, price, unit, tax code, barcode,
    category and active flag; and it never writes a tax rate. *)
Theorem create_sale_touches_only_stock (s : Sale.t) (db : DB) :
  map erase_stock (product (create_sale s db).2) = map erase_stock (product db)
  /\ length (product (create_sale s db).2) = length (product db)
  /\ taxrate (create_sale s db).2 = taxrate db.
Proof.
  destruct (create_sale_keeps_catalog s db) as [H1 H2]. split; [exact H1|]. split; [|exact H2].
  apply (f_equal length) in H1. now rewrite !length_map in H1.
Qed.

(** X9. A committed sale appends one record and touches no earlier one: the
    record stands last, under the identifier that was free, and carries the
    request's items, customer name, payment, user and timestamp as they
    were sent, a breakdown, and the three totals of the response. *)
Theorem committed_record_keeps_the_request (s : Sale.t) (db : DB) (r : response) :
  (create_sale s db).1 = Ok r ->
  exists rec bd,
    sale (create_sale s db).2 = sale db ++ [mkDoc (next_id db) rec]
    /\ next_id (create_sale s db).2 = S (next_id db)
    /\ Sale.items rec = Sale.items s
    /\ Sale.customer_name rec = Sale.customer_name s
    /\ Sale.payment rec = Sale.payment s
    /\ Sale.user rec = Sale.user s
    /\ Sale.timestamp rec = Sale.timestamp s
    /\ Sale.tax_breakdown rec = Some bd
    /\ r = mkResponse "created"
             (mkTotals (Sale.subtotal rec) (Sale.tax_total rec) (Sale.total rec)).
Proof.
  destruct (create_sale_cases s db) as [[_ ->]|(pre & bad & post & _ & _ & _ & ->)];
    simpl; intros H; [|discriminate].
  injection H as <-.
  eexists. eexists. repeat split; reflexivity.
Qed.

Lemma committed_record_keeps_the_request_witness :
  let r := mkResponse "created"
             (mkTotals (Float.lit 5600 1000) (Float.lit 392 1000)
                (Float.lit 5992 1000)) in
  (create_sale Examples.milk_and_bread Examples.seeded_db).1 = Ok r
  /\ exists rec bd,
       sale (create_sale Examples.milk_and_bread Examples.seeded_db).2
       = sale Examples.seeded_db ++ [mkDoc (next_id Examples.seeded_db) rec]
       /\ next_id (create_sale Examples.milk_and_bread Examples.seeded_db).2
          = S (next_id Examples.seeded_db)
       /\ Sale.items rec = Sale.items Examples.milk_and_bread
       /\ Sale.customer_name rec = Sale.customer_name Examples.milk_and_bread
       /\ Sale.payment rec = Sale.payment Examples.milk_and_bread
       /\ Sale.user rec = Sale.user Examples.milk_and_bread
       /\ Sale.timestamp rec = Sale.timestamp Examples.milk_and_bread
       /\ Sale.tax_breakdown rec = Some bd
       /\ r = mkResponse "created"
                (mkTotals (Sale.subtotal rec) (Sale.tax_total rec)
                   (Sale.total rec)).
Proof.
  intros r.
  assert (H : (create_sale Examples.milk_and_bread Examples.seeded_db).1 = Ok r)
    by (vm_compute; reflexivity).
  split; [exact H|].
  exact (committed_record_keeps_the_request
           Examples.milk_and_bread Examples.seeded_db r H).
Defined.

(** The outcome of a sale depends on the store through the tax rates and
    through which SKUs exist, and on nothing else. *)
Lemma create_sale_outcome_depends s db db' :
  map body (taxrate db) = map body (taxrate db') ->
  (forall sku, find_one_sku sku (product db) = None
               <-> find_one_sku sku (product db') = None) ->
  (create_sale s db).1 = (create_sale s db').1.
Proof.
  intros Ht Hs.
  assert (Hk : forall item, known (product db) item -> known (product db') item).
  { intros item H. unfold known in *. now rewrite <- Hs. }
  assert (Htaxes : taxes_of db = taxes_of db') by (unfold taxes_of; congruence).
  destruct (create_sale_cases s db)
    as [[Hall ->]|(pre & bad & post & E & Hpre & Hbad & ->)]; simpl.
  - rewrite (create_sale_known s db').
    + simpl. now rewrite Htaxes.
    + eapply Forall_impl; [exact Hall|exact Hk].
  - rewrite (create_sale_unknown s db' pre bad post E).
    + reflexivity.
    + eapply Forall_impl; [exact Hpre|exact Hk].
    + now apply Hs.
Qed.

Lemma find_one_sku_None_after_sale s db sku :
  find_one_sku sku (product db) = None
  <-> find_one_sku sku (product (create_sale s db).2) = None.
Proof.
  assert (H : exists l, product (create_sale s db).2 = stock_after l (product db)).
  { destruct (create_sale_cases s db)
      as [[_ ->]|(pre & bad & post & _ & _ & _ & ->)]; simpl; eauto. }
  destruct H as [l ->].
  pose proof (find_one_sku_stock_after sku l (product db)) as E.
  destruct (find_one_sku sku (stock_after l (product db))),
           (find_one_sku sku (product db)); simpl in E; split; congruence.
Qed.

(** X10. The outcome of a sale does not depend on the sales served before
    it: after any earlier request, committed or refused, a request gets the
    response, or the error, it would have got without it. (The stock is
    never read.) *)
Theorem earlier_sales_do_not_change_the_outcome (s1 s2 : Sale.t) (db : DB) :
  (create_sale s2 (create_sale s1 db).2).1 = (create_sale s2 db).1.
Proof.
  apply create_sale_outcome_depends.
  - destruct (create_sale_keeps_catalog s1 db) as [_ ->]. reflexivity.
  - intros sku. symmetry. apply find_one_sku_None_after_sale.
Qed.

(** X11. A request sent twice is served twice: when its SKUs are in the
    catalog, the second submission is committed with the same response, a
    second copy of the record is appended under the next identifier, and
    the quantity of every line is taken off the stock a second time. *)
Theorem resubmitted_sale_is_committed_again (s : Sale.t) (db : DB) :
  Forall (known (product db)) (Sale.items s) ->
  let db1 := (create_sale s db).2 in
  let db2 := (create_sale s db1).2 in
  exists r rec,
    (create_sale s db).1 = Ok r
    /\ (create_sale s db1).1 = Ok r
    /\ sale db2
       = sale db ++ [mkDoc (next_id db) rec; mkDoc (S (next_id db)) rec]
    /\ product db1 = stock_after (Sale.items s) (product db)
    /\ product db2 = stock_after (Sale.items s ++ Sale.items s) (product db).
Proof.
  intros Hall db1 db2. subst db1 db2.
  rewrite (create_sale_known s db Hall). simpl.
  assert (Hall' : Forall (known (product (committed s db
                     (aggregate (taxes_of db) (Sale.items s)))))
                    (Sale.items s)).
  { simpl. eapply Forall_impl; [exact Hall|].
    intros item H. now apply known_stock_after. }
  rewrite (create_sale_known _ _ Hall'). simpl.
  exists (created s (aggregate (taxes_of db) (Sale.items s))),
    (sale_record s (aggregate (taxes_of db) (Sale.items s))).
  split; [reflexivity|]. split; [reflexivity|]. split.
  - now rewrite <- app_assoc.
  - split; [reflexivity|]. now rewrite stock_after_app.
Qed.

Lemma resubmitted_sale_is_committed_again_witness :
  Forall (known (product Examples.seeded_db)) (Sale.items Examples.milk_and_bread)
  /\ let s := Examples.milk_and_bread in
     let db := Examples.seeded_db in
     let db1 := (create_sale s db).2 in
     let db2 := (create_sale s db1).2 in
     exists r rec,
       (create_sale s db).1 = Ok r
       /\ (create_sale s db1).1 = Ok r
       /\ sale db2
          = sale db ++ [mkDoc (next_id db) rec; mkDoc (S (next_id db)) rec]
       /\ product db1 = stock_after (Sale.items s) (product db)
       /\ product db2 = stock_after (Sale.items s ++ Sale.items s) (product db).
Proof.
  assert (H : Forall (known (product Examples.seeded_db))
                (Sale.items Examples.milk_and_bread)).
  { apply seeded_all_known. vm_compute. reflexivity. }
  split; [exact H|].
  exact (resubmitted_sale_is_committed_again
           Examples.milk_and_bread Examples.seeded_db H).
Defined.

(** X12. The response to a sale does not depend on what the catalog says of
    the products: on two stores with the same tax rates and the same SKUs,
    whatever the prices, stocks and tax codes of the products are, a
    request gets the same response or the same error. *)
Theorem catalog_prices_are_never_read (s : Sale.t) (db db' : DB) :
  map body (taxrate db) = map body (taxrate db') ->
  (forall sku, sku ∈ skus (product db) <-> sku ∈ skus (product db')) ->
  (create_sale s db).1 = (create_sale s db').1.
Proof.
  intros Ht Hs. apply create_sale_outcome_depends; [exact Ht|].
  intros sku. rewrite !find_one_sku_None_skus. now rewrite Hs.
Qed.

(** X13. Only the items of a request decide what a sale does to the
    catalog and what it answers: two requests with the same items, whatever
    their payment, customer, user and timestamp, get the same response and
    leave the same products and tax rates. (The amount paid is not compared
    with the total.) *)
Theorem only_the_items_decide_the_outcome (s s' : Sale.t) (db : DB) :
  Sale.items s = Sale.items s' ->
  (create_sale s db).1 = (create_sale s' db).1
  /\ product (create_sale s db).2 = product (create_sale s' db).2
  /\ taxrate (create_sale s db).2 = taxrate (create_sale s' db).2
  /\ length (sale (create_sale s db).2) = length (sale (create_sale s' db).2).
Proof.
  intros E.
  destruct (create_sale_cases s db)
    as [[Hall ->]|(pre & bad & post & Ei & Hpre & Hbad & ->)].
  - rewrite E in Hall. rewrite (create_sale_known s' db Hall). simpl.
    rewrite E. rewrite !length_app. repeat split; reflexivity.
  - rewrite E in Ei. rewrite (create_sale_unknown s' db pre bad post Ei Hpre Hbad).
    repeat split; reflexivity.
Qed.

Lemma catalog_prices_are_never_read_witness :
  map body (taxrate Examples.seeded_db)
  = map body (taxrate MoreExamples.repriced_db)
  /\ (forall sku, sku ∈ skus (product Examples.seeded_db)
                  <-> sku ∈ skus (product MoreExamples.repriced_db))
  /\ (create_sale Examples.milk_and_bread Examples.seeded_db).1
     = (create_sale Examples.milk_and_bread MoreExamples.repriced_db).1.
Proof.
  assert (H1 : map body (taxrate Examples.seeded_db)
               = map body (taxrate MoreExamples.repriced_db)) by reflexivity.
  assert (H2 : forall sku, sku ∈ skus (product Examples.seeded_db)
                           <-> sku ∈ skus (product MoreExamples.repriced_db)).
  { intros sku.
    assert (E : skus (product Examples.seeded_db)
                = skus (product MoreExamples.repriced_db))
      by (vm_compute; reflexivity).
    rewrite E. reflexivity. }
  split; [exact H1|]. split; [exact H2|].
  exact (catalog_prices_are_never_read Examples.milk_and_bread
           Examples.seeded_db MoreExamples.repriced_db H1 H2).
Defined.

Lemma only_the_items_decide_the_outcome_witness :
  let s := Examples.milk_and_bread in
  let s' := MoreExamples.unpaid in
  let db := Examples.seeded_db in
  Sale.items s = Sale.items s'
  /\ (create_sale s db).1 = (create_sale s' db).1
  /\ product (create_sale s db).2 = product (create_sale s' db).2
  /\ taxrate (create_sale s db).2 = taxrate (create_sale s' db).2
  /\ length (sale (create_sale s db).2) = length (sale (create_sale s' db).2).
Proof.
  intros s s' db.
  split; [reflexivity|].
  apply (only_the_items_decide_the_outcome s s' db). reflexivity.
Defined.

(** ** The keys of the breakdown *)

Lemma mem_elem ks x : mem ks x = true <-> x ∈ ks.
Proof.
  unfold mem. rewrite existsb_exists. split.
  - intros (y & Hin & E). apply String.eqb_eq in E. subst y.
    now apply list_elem_of_In.
  - intros H. exists x. split; [now apply list_elem_of_In|apply String.eqb_refl].
Qed.

Lemma dict_keys_set {V : Type} (d : dict V) k v :
  dict_keys (dict_set d k v)
  = if mem (dict_keys d) k then dict_keys d else dict_keys d ++ [k].
Proof.
  unfold dict_keys, mem. induction d as [|[k0 v0] d IH]; simpl; [reflexivity|].
  rewrite (String.eqb_sym k k0).
  destruct (String.eqb k0 k); simpl; [reflexivity|].
  rewrite IH. now destruct (existsb (String.eqb k) (map fst d)).
Qed.

Lemma dict_keys_map {V W : Type} (f : V -> W) (d : dict V) :
  dict_keys (map (fun kv => (fst kv, f (snd kv))) d) = dict_keys d.
Proof. unfold dict_keys. rewrite map_map. reflexivity. Qed.

(** The keys after a run of lines: the keys before, then the new codes in
    the order in which they first resolve. *)
Lemma breakdown_keys_after taxes items : forall acc,
  dict_keys (l_tax_breakdown (fold_left (add_line taxes) items acc))
  = dict_keys (l_tax_breakdown acc)
    ++ List.filter (fun x => negb (mem (dict_keys (l_tax_breakdown acc)) x))
         (first_occurrences (resolved_codes taxes items)).
Proof.
  induction items as [|item items IH]; intros acc.
  - simpl. now rewrite app_nil_r.
  - cbn [fold_left]. rewrite IH. unfold resolved_codes. cbn [flat_map].
    fold (resolved_codes taxes items).
    unfold add_line.
    destruct (taxed taxes item) as [[c t]|] eqn:E; cbn [l_tax_breakdown app];
      [|reflexivity].
    rewrite dict_keys_set. cbn [first_occurrences List.filter].
    set (ks := dict_keys (l_tax_breakdown acc)).
    set (fo := first_occurrences (resolved_codes taxes items)).
    destruct (mem ks c) eqn:Ec; cbn [negb].
    + f_equal. induction fo as [|x fo IHfo]; [reflexivity|].
      cbn [List.filter].
      destruct (String.eqb x c) eqn:Ex; cbn [negb List.filter].
      * apply String.eqb_eq in Ex. subst x. rewrite Ec. cbn [negb]. exact IHfo.
      * destruct (mem ks x); cbn [negb]; now rewrite IHfo.
    + rewrite <- app_assoc. cbn [app]. do 2 f_equal.
      induction fo as [|x fo IHfo]; [reflexivity|].
      cbn [List.filter]. unfold mem at 1. rewrite existsb_app. fold (mem ks x).
      cbn [existsb]. rewrite orb_false_r.
      destruct (String.eqb x c) eqn:Ex; cbn [negb List.filter].
      * rewrite orb_true_r. cbn [negb]. exact IHfo.
      * rewrite orb_false_r.
        destruct (mem ks x); cbn [negb]; now rewrite IHfo.
Qed.

Lemma filter_all {A : Type} (l : list A) : List.filter (fun _ => true) l = l.
Proof. induction l as [|x l IH]; simpl; congruence. Qed.

Lemma first_occurrences_elem l x : x ∈ first_occurrences l <-> x ∈ l.
Proof.
  induction l as [|c l IH]; [reflexivity|].
  cbn [first_occurrences]. rewrite !elem_of_cons, <- IH, !list_elem_of_In.
  rewrite List.filter_In, negb_true_iff, String.eqb_neq.
  destruct (String.eqb_spec x c) as [->|Hne]; tauto.
Qed.

Lemma filter_NoDup {A : Type} (f : A -> bool) (l : list A) :
  NoDup l -> NoDup (List.filter f l).
Proof.
  induction 1 as [|x l Hx Hl IH]; simpl; [constructor|].
  destruct (f x); [|exact IH].
  constructor; [|exact IH].
  rewrite list_elem_of_In, List.filter_In, <- list_elem_of_In. tauto.
Qed.

Lemma first_occurrences_NoDup l : NoDup (first_occurrences l).
Proof.
  induction l as [|c l IH]; cbn [first_occurrences]; constructor.
  - rewrite list_elem_of_In, List.filter_In, negb_true_iff, String.eqb_neq.
    tauto.
  - now apply filter_NoDup.
Qed.

Lemma resolved_codes_elem taxes items c :
  c ∈ resolved_codes taxes items
  <-> exists item t, item ∈ items /\ taxed taxes item = Some (c, t).
Proof.
  unfold resolved_codes. rewrite list_elem_of_In, in_flat_map. split.
  - intros (item & Hin & Hc). destruct (taxed taxes item) as [[c' t]|] eqn:E.
    + destruct Hc as [->|[]]. exists item, t.
      split; [now apply list_elem_of_In|exact E].
    + destruct Hc.
  - intros (item & t & Hin & E). exists item.
    split; [now apply list_elem_of_In|]. rewrite E. now left.
Qed.

(** X14. In the record of a committed sale the keys of [tax_breakdown] are
    the codes under which lines resolved, each once, in the order in which
    they first occur among the lines; every key is a non-empty code of the
    tax table, carried by some line of the request. *)
Theorem breakdown_keys_in_order_of_first_use (s : Sale.t) (db : DB) :
  Forall (known (product db)) (Sale.items s) ->
  let codes := resolved_codes (taxes_of db) (Sale.items s) in
  exists rec bd,
    sale (create_sale s db).2 = sale db ++ [mkDoc (next_id db) rec]
    /\ Sale.tax_breakdown rec = Some bd
    /\ dict_keys bd = first_occurrences codes
    /\ NoDup (dict_keys bd)
    /\ forall c, c ∈ dict_keys bd ->
         c <> ""%string
         /\ taxes_of db !! c <> None
         /\ exists item, item ∈ Sale.items s /\ SaleItem.tax_code item = Some c.
Proof.
  intros Hall codes. rewrite (create_sale_known _ _ Hall). simpl.
  eexists. eexists. split; [reflexivity|]. split; [reflexivity|].
  assert (Hk : dict_keys
                 (map (fun kv => (fst kv, Float.round3 (snd kv)))
                    (l_tax_breakdown (aggregate (taxes_of db) (Sale.items s))))
               = first_occurrences codes).
  { rewrite dict_keys_map. unfold aggregate. rewrite breakdown_keys_after.
    simpl. apply filter_all. }
  split; [exact Hk|]. split; [rewrite Hk; apply first_occurrences_NoDup|].
  intros c Hc. rewrite Hk in Hc.
  apply (proj1 (first_occurrences_elem _ _)) in Hc.
  apply resolved_codes_elem in Hc as (item & t & Hin & E).
  apply taxed_Some in E as (Hcode & Hne & Hl).
  split; [exact Hne|]. split; [congruence|]. eauto.
Qed.

Lemma breakdown_keys_in_order_of_first_use_witness :
  Forall (known (product Examples.seeded_db)) (Sale.items MoreExamples.mixed_codes)
  /\ let s := MoreExamples.mixed_codes in
     let db := Examples.seeded_db in
     let codes := resolved_codes (taxes_of db) (Sale.items s) in
     exists rec bd,
       sale (create_sale s db).2 = sale db ++ [mkDoc (next_id db) rec]
       /\ Sale.tax_breakdown rec = Some bd
       /\ dict_keys bd = first_occurrences codes
       /\ NoDup (dict_keys bd)
       /\ forall c, c ∈ dict_keys bd ->
            c <> ""%string
            /\ taxes_of db !! c <> None
            /\ exists item,
                 item ∈ Sale.items s /\ SaleItem.tax_code item = Some c.
Proof.
  assert (H : Forall (known (product Examples.seeded_db))
                (Sale.items MoreExamples.mixed_codes)).
  { apply seeded_all_known. vm_compute. reflexivity. }
  split; [exact H|].
  exact (breakdown_keys_in_order_of_first_use
           MoreExamples.mixed_codes Examples.seeded_db H).
Defined.

(** The keys of the mixed request: 19% first, then 7%; the unknown code
    leaves none. *)
Example mixed_codes_keys :
  map (fun d => option_map dict_keys (Sale.tax_breakdown (body d)))
    (sale (create_sale MoreExamples.mixed_codes Examples.seeded_db).2)
  = [Some ["TVA19"%string; "TVA7"%string]].
Proof. vm_compute. reflexivity. Qed.

(** ** [seed_demo] *)

Lemma create_documents_product_run ps : forall db,
  create_documents_product ps db
  = (Ok tt,
     mkDB (product db ++ number_from (next_id db) ps) (taxrate db) (sale db)
          (next_id db + length ps)).
Proof.
  induction ps as [|p ps IH]; intros db.
  - simpl. unfold ret. rewrite app_nil_r, Nat.add_0_r. now destruct db.
  - cbn [create_documents_product]. unfold bind, create_document_product.
    rewrite IH. cbn [product taxrate sale next_id number_from length].
    rewrite <- app_assoc. simpl. do 2 f_equal. lia.
Qed.

Lemma seed_demo_body_run st :
  let db := core st in
  let db1 := (ensure_default_taxes db).2 in
  let db2 := if Nat.eqb (length (product db1)) 0
             then (create_documents_product demo_products db1).2
             else db1 in
  let st3 := if Nat.eqb (length (user st)) 0
             then (create_document_user demo_user (mkStore db2 (user st))).2
             else mkStore db2 (user st) in
  seed_demo_body st
  = (Ok (mkSeedResponse "ok" (length (missing_defaults db))
           (length (product (core st3))) (length (user st3))),
     st3).
Proof.
  intros db db1 db2 st3. subst db db1 db2 st3.
  unfold seed_demo_body, bindS, lift at 1.
  rewrite ensure_default_taxes_run. cbn [snd].
  unfold lift at 1, count_documents_product at 1. cbn [core product].
  destruct (Nat.eqb (length (product (core st))) 0) eqn:En.
  - unfold lift at 1. cbn [core]. rewrite create_documents_product_run.
    cbn [snd user]. unfold count_documents_user at 1. cbn [user].
    destruct (Nat.eqb (length (user st)) 0) eqn:Em; reflexivity.
  - unfold retS at 1. unfold count_documents_user at 1. cbn [user].
    destruct (Nat.eqb (length (user st)) 0) eqn:Em; reflexivity.
Qed.

Lemma length_zero_nil {A : Type} (l : list A) :
  Nat.eqb (length l) 0 = true <-> l = [].
Proof. destruct l; simpl; split; congruence. Qed.

(** What [seed_demo_body] leaves, field by field. *)
Lemma seed_demo_body_store st :
  let st' := (seed_demo_body st).2 in
  sale (core st') = sale (core st)
  /\ taxrate (core st') = taxrate (ensure_default_taxes (core st)).2
  /\ (product (core st) <> [] -> product (core st') = product (core st))
  /\ (product (core st) = [] -> map body (product (core st')) = demo_products)
  /\ (user st <> [] -> user st' = user st)
  /\ (user st = [] -> map body (user st') = [demo_user]).
Proof.
  intros st'. subst st'. rewrite seed_demo_body_run. cbn [snd].
  rewrite ensure_default_taxes_run. cbn [snd product].
  destruct (Nat.eqb (length (product (core st))) 0) eqn:En;
    destruct (Nat.eqb (length (user st)) 0) eqn:Em;
    try rewrite create_documents_product_run;
    try apply length_zero_nil in En; try apply length_zero_nil in Em;
    cbn [snd core product taxrate sale user create_document_user].
  all: repeat split; try congruence; intros H.
  all: try (rewrite H in En; discriminate En).
  all: try (rewrite H in Em; discriminate Em).
  all: rewrite H; simpl; rewrite ?map_body_number_from; reflexivity.
Qed.

(** X15. On a configured database [seed_demo] never raises, and it seeds
    only what is empty: the sales are untouched, the tax rates gain the
    missing defaults and nothing else, products that are stored are left
    exactly as they are (the four demo products are added only to an empty
    catalog), and likewise the users; the counts of the response are those
    of the store it leaves. *)
Theorem seed_demo_seeds_only_what_is_empty (st : Store) :
  exists r st',
    seed_demo (Some st) = (Ok r, Some st')
    /\ sale (core st') = sale (core st)
    /\ map body (taxrate (core st'))
       = map body (taxrate (core st)) ++ missing_defaults (core st)
    /\ (product (core st) <> [] -> product (core st') = product (core st))
    /\ (product (core st) = [] -> map body (product (core st')) = demo_products)
    /\ (user st <> [] -> user st' = user st)
    /\ (user st = [] -> map body (user st') = [demo_user])
    /\ seed_status r = "ok"%string
    /\ taxes_created r = length (missing_defaults (core st))
    /\ products r = length (product (core st'))
    /\ users r = length (user st').
Proof.
  pose proof (seed_demo_body_store st) as (Hs & Ht & Hp1 & Hp2 & Hu1 & Hu2).
  pose proof (seed_demo_body_run st) as Hrun. cbn zeta in Hrun.
  unfold seed_demo. rewrite Hrun in *. cbn [snd] in *.
  eexists. eexists. split; [reflexivity|].
  split; [exact Hs|]. split.
  { rewrite Ht, ensure_default_taxes_run. cbn [snd taxrate].
    now rewrite map_app, map_body_number_from. }
  repeat split; assumption.
Qed.

Lemma missing_defaults_taxrate db db' :
  taxrate db = taxrate db' -> missing_defaults db = missing_defaults db'.
Proof. unfold missing_defaults, taxes_of. now intros ->. Qed.

Lemma eqb_length_nonempty {A : Type} (l : list A) :
  l <> [] -> Nat.eqb (length l) 0 = false.
Proof. destruct l; [congruence|reflexivity]. Qed.

(** X16. [seed_demo] is idempotent: a second call creates no tax rate, no
    product and no user, leaves the store as the first call left it, and
    reports 0 taxes created with the same counts. *)
Theorem seed_demo_twice_changes_nothing (st : Store) :
  exists r st',
    seed_demo (Some st) = (Ok r, Some st')
    /\ seed_demo (Some st')
       = (Ok (mkSeedResponse "ok" 0 (products r) (users r)), Some st').
Proof.
  pose proof (seed_demo_body_store st) as (Hs & Ht & Hp1 & Hp2 & Hu1 & Hu2).
  pose proof (seed_demo_body_run st) as Hrun. cbn zeta in Hrun.
  unfold seed_demo at 1. rewrite Hrun in *. cbn [snd] in *.
  eexists. eexists. split; [reflexivity|].
  match goal with |- seed_demo (Some ?x) = _ => set (st' := x) in * end.
  assert (Hp : Nat.eqb (length (product (core st'))) 0 = false).
  { apply eqb_length_nonempty.
    destruct (product (core st)) as [|d c] eqn:E.
    - intros H. specialize (Hp2 eq_refl). rewrite H in Hp2. discriminate.
    - rewrite Hp1; discriminate. }
  assert (Hu : Nat.eqb (length (user st')) 0 = false).
  { apply eqb_length_nonempty.
    destruct (user st) as [|d c] eqn:E.
    - intros H. specialize (Hu2 eq_refl). rewrite H in Hu2. discriminate.
    - rewrite Hu1; discriminate. }
  assert (Hmiss : missing_defaults (core st') = []).
  { rewrite (missing_defaults_taxrate _ _ Ht). apply missing_defaults_after. }
  assert (Hens : ensure_default_taxes (core st') = (Ok [], core st')).
  { rewrite ensure_default_taxes_run, Hmiss. simpl.
    rewrite app_nil_r, Nat.add_0_r. now destruct (core st'). }
  unfold seed_demo. rewrite seed_demo_body_run. cbn zeta.
  rewrite Hens. cbn [snd]. rewrite Hp, Hu, Hmiss.
  cbn [products users length]. destruct st' as [c u]. reflexivity.
Qed.

(** ** What every reachable store satisfies *)

Lemma skus_erase (c : list (Doc Product.t)) : skus (map erase_stock c) = skus c.
Proof. unfold skus. rewrite map_map. reflexivity. Qed.

Lemma ids_erase (c : list (Doc Product.t)) :
  map _id (map erase_stock c) = map _id c.
Proof. rewrite map_map. reflexivity. Qed.

Lemma catalog_ok_same_identity db db' :
  map erase_stock (product db') = map erase_stock (product db) ->
  (next_id db <= next_id db')%nat ->
  catalog_ok db -> catalog_ok db'.
Proof.
  intros E Hn (Hs & Hi & Hlt). unfold catalog_ok.
  rewrite <- (skus_erase (product db')), <- (ids_erase (product db')), E.
  rewrite skus_erase, ids_erase. split; [exact Hs|]. split; [exact Hi|].
  apply Forall_forall. intros d Hd.
  assert (Hin : _id d ∈ map _id (product db)).
  { rewrite <- ids_erase, <- E, ids_erase. apply list_elem_of_fmap. eauto. }
  apply list_elem_of_fmap in Hin as (d0 & Hid & Hd0).
  rewrite Forall_forall in Hlt. specialize (Hlt d0 Hd0). lia.
Qed.

Lemma catalog_ok_append db p :
  find_one_sku (Product.sku p) (product db) = None ->
  catalog_ok db ->
  catalog_ok (mkDB (product db ++ [mkDoc (next_id db) p]) (taxrate db)
                   (sale db) (S (next_id db))).
Proof.
  intros Hfresh (Hs & Hi & Hlt). unfold catalog_ok, skus. cbn [product next_id].
  rewrite !map_app. cbn [map _id body]. rewrite Forall_forall in Hlt.
  split; [|split].
  - apply NoDup_app. split; [exact Hs|]. split.
    + intros x Hx Hx'. apply list_elem_of_singleton in Hx'. subst x.
      apply find_one_sku_None_skus in Hfresh. contradiction.
    + apply NoDup_singleton.
  - apply NoDup_app. split; [exact Hi|]. split.
    + intros x Hx Hx'. apply list_elem_of_singleton in Hx'. subst x.
      apply list_elem_of_fmap in Hx as (d & Hid & Hd).
      specialize (Hlt d Hd). lia.
    + apply NoDup_singleton.
  - apply Forall_app. split.
    + apply Forall_forall. intros d Hd. specialize (Hlt d Hd). lia.
    + repeat constructor.
Qed.

Lemma catalog_ok_create_product p db :
  catalog_ok db -> catalog_ok (create_product p db).2.
Proof.
  intros H.
  destruct (find_one_sku (Product.sku p) (product db)) as [d|] eqn:E.
  - rewrite create_product_taken by congruence. exact H.
  - rewrite (create_product_fresh _ _ E). now apply catalog_ok_append.
Qed.

Lemma catalog_ok_create_sale s db :
  catalog_ok db -> catalog_ok (create_sale s db).2.
Proof.
  apply catalog_ok_same_identity.
  - apply create_sale_keeps_catalog.
  - destruct (create_sale_cases s db)
      as [[_ ->]|(pre & bad & post & _ & _ & _ & ->)]; simpl; lia.
Qed.

Lemma catalog_ok_ensure_default_taxes db :
  catalog_ok db -> catalog_ok (ensure_default_taxes db).2.
Proof.
  apply catalog_ok_same_identity; rewrite ensure_default_taxes_run; simpl;
    [reflexivity|lia].
Qed.

Lemma ids_number_from {A : Type} (ds : list A) : forall n,
  map _id (number_from n ds) = seq n (length ds).
Proof.
  induction ds as [|d ds IH]; intros n; simpl; [reflexivity|].
  now rewrite IH.
Qed.

Lemma skus_number_from (ps : list Product.t) n :
  skus (number_from n ps) = map Product.sku ps.
Proof.
  unfold skus. rewrite <- (map_body_number_from ps n) at 2.
  now rewrite map_map.
Qed.

Lemma catalog_ok_seed_demo st :
  catalog_ok (core st) -> catalog_ok (core (seed_demo_body st).2).
Proof.
  intros H. rewrite seed_demo_body_run. cbn [snd].
  apply catalog_ok_ensure_default_taxes in H.
  set (db1 := (ensure_default_taxes (core st)).2) in *.
  assert (H2 : catalog_ok
                 (if Nat.eqb (length (product db1)) 0
                  then (create_documents_product demo_products db1).2
                  else db1)).
  { destruct (Nat.eqb (length (product db1)) 0) eqn:En; [|exact H].
    apply length_zero_nil in En. rewrite create_documents_product_run.
    cbn [snd]. unfold catalog_ok. cbn [product next_id]. rewrite En.
    cbn [app]. rewrite skus_number_from, ids_number_from. split; [|split].
    - apply (bool_decide_unpack _). vm_compute. exact I.
    - apply NoDup_seq.
    - apply Forall_forall. intros d Hd.
      assert (Hin : _id d ∈ map _id (number_from (next_id db1) demo_products))
        by (apply list_elem_of_fmap; eauto).
      rewrite ids_number_from in Hin. apply elem_of_seq in Hin. lia. }
  destruct (Nat.eqb (length (user st)) 0); cbn [snd core create_document_user].
  - revert H2. apply catalog_ok_same_identity; simpl; [reflexivity|lia].
  - exact H2.
Qed.

Lemma core_lift {A : Type} (m : M A) st : core (lift m st).2 = (m (core st)).2.
Proof. unfold lift. now destruct (m (core st)). Qed.

(** X17. In every store that requests can lead to from the empty one, the
    SKUs of the products are pairwise distinct, and so are their
    identifiers: [create_product] refuses a SKU that is taken, [seed_demo]
    adds its products to an empty catalog only, and sales and tax listings
    add no product. A SKU therefore finds at most one product. *)
Theorem reachable_stores_have_unique_skus (st : Store) :
  reachable st ->
  NoDup (skus (product (core st)))
  /\ NoDup (map _id (product (core st)))
  /\ forall d1 d2, d1 ∈ product (core st) -> d2 ∈ product (core st) ->
       Product.sku (body d1) = Product.sku (body d2) -> d1 = d2.
Proof.
  intros Hr.
  assert (H : catalog_ok (core st)).
  { induction Hr as [|st st' Hr IH Hstep].
    - repeat split; simpl; constructor.
    - destruct Hstep; rewrite ?core_lift.
      + now apply catalog_ok_create_product.
      + now apply catalog_ok_create_sale.
      + unfold list_taxes, bind.
        pose proof (catalog_ok_ensure_default_taxes _ IH) as H.
        destruct (ensure_default_taxes (core st)) as [[l|e] db']; exact H.
      + now apply catalog_ok_seed_demo. }
  destruct H as (Hs & Hi & _). split; [exact Hs|]. split; [exact Hi|].
  intros d1 d2 H1 H2 E. clear Hi Hr.
  induction (product (core st)) as [|d c IH]; [inversion H1|].
  unfold skus in Hs. simpl in Hs. apply NoDup_cons in Hs as [Hd Hc].
  apply elem_of_cons in H1 as [->|H1]; apply elem_of_cons in H2 as [->|H2].
  - reflexivity.
  - exfalso. apply Hd. rewrite E. apply list_elem_of_fmap. eauto.
  - exfalso. apply Hd. rewrite <- E. apply list_elem_of_fmap. eauto.
  - now apply IH.
Qed.

Lemma reachable_stores_have_unique_skus_witness :
  let st := (lift (create_sale Examples.milk_only)
               (lift (create_product Examples.milk) empty_store).2).2 in
  reachable st
  /\ NoDup (skus (product (core st)))
  /\ NoDup (map _id (product (core st)))
  /\ forall d1 d2, d1 ∈ product (core st) -> d2 ∈ product (core st) ->
       Product.sku (body d1) = Product.sku (body d2) -> d1 = d2.
Proof.
  intros st.
  assert (H : reachable st).
  { apply (reachable_step (lift (create_product Examples.milk) empty_store).2).
    - apply (reachable_step empty_store).
      + apply reachable_empty.
      + apply step_create_product.
    - apply step_create_sale. }
  split; [exact H|].
  exact (reachable_stores_have_unique_skus st H).
Defined.

(** ** Signs of the totals *)

Lemma positive_finite_shape x :
  Float.ltb Float.zero x = true -> Float.is_finite x = true ->
  exists m e, x = S754_finite false m e.
Proof.
  destruct x as [s|s| |[] m e]; try discriminate; eauto.
Qed.

(** A positive finite factor times a non-negative one is not negative. *)
Lemma mul_nonneg x y :
  Float.ltb Float.zero x = true -> Float.is_finite x = true ->
  Float.leb Float.zero y = true ->
  Float.leb Float.zero (Float.mul x y) = true.
Proof.
  intros Hx Hf Hy. destruct (positive_finite_shape x Hx Hf) as (m & e & ->).
  apply stock_sign in Hy. apply stock_sign.
  destruct y as [sy|sy| |sy my ey]; try contradiction; subst; try exact I;
    try reflexivity.
  unfold Float.mul, SFmul. cbn [xorb].
  pose proof (binary_round_aux_sign false (Zpos (m * my)) (e + ey) loc_Exact) as H.
  destruct (binary_round_aux Float.prec Float.emax false (Zpos (m * my)) (e + ey)
              loc_Exact); try apply H; try lia; exact I.
Qed.

(** The same with the factors exchanged. *)
Lemma mul_nonneg_r x y :
  Float.leb Float.zero x = true ->
  Float.ltb Float.zero y = true -> Float.is_finite y = true ->
  Float.leb Float.zero (Float.mul x y) = true.
Proof.
  intros Hx Hy Hf. destruct (positive_finite_shape y Hy Hf) as (m & e & ->).
  apply stock_sign in Hx. apply stock_sign.
  destruct x as [sx|sx| |sx mx ex]; try contradiction; subst; try exact I;
    try reflexivity.
  unfold Float.mul, SFmul. cbn [xorb].
  pose proof (binary_round_aux_sign false (Zpos (mx * m)) (ex + e) loc_Exact) as H.
  destruct (binary_round_aux Float.prec Float.emax false (Zpos (mx * m)) (ex + e)
              loc_Exact); try apply H; try lia; exact I.
Qed.

Lemma add_nonneg x y :
  Float.leb Float.zero x = true -> Float.leb Float.zero y = true ->
  Float.leb Float.zero (Float.add x y) = true.
Proof.
  intros Hx Hy. pose proof Hx as Hx'. pose proof Hy as Hy'.
  apply stock_sign in Hx. apply stock_sign in Hy.
  destruct x as [sx|sx| |sx mx ex]; try contradiction;
    destruct y as [sy|sy| |sy my ey]; try contradiction; subst;
    try assumption; try reflexivity.
  - destruct sx, sy; reflexivity.
  - unfold Float.add, SFadd. apply binary_normalize_sign_ok. simpl. lia.
Qed.

Lemma round3_nonneg x :
  Float.leb Float.zero x = true -> Float.leb Float.zero (Float.round3 x) = true.
Proof.
  intros Hx. pose proof Hx as Hx'. apply stock_sign in Hx.
  destruct x as [sx|sx| |sx mx ex]; try contradiction; subst; try assumption.
  unfold Float.round3.
  destruct (if 0 <=? ex then Zpos mx * 2 ^ ex * 1000
            else Float.round_half_even_div (Zpos mx * 1000) (2 ^ (- ex)))
    as [|qp|qp]; try reflexivity.
  unfold SFdiv, SFdiv_core_binary. cbn [xorb].
  match goal with
  | |- context [Z.div_eucl ?a ?b] =>
      pose proof (Z.div_pos a b) as Hq; unfold Z.div in Hq;
      assert (Ha : 0 <= a);
      [|destruct (Z.div_eucl a b) as [q r]; cbn [fst] in Hq]
  end.
  { destruct (_ - _ - _) as [|p|p]; try lia.
    rewrite Z.shiftl_mul_pow2 by lia.
    pose proof (Z.pow_pos_nonneg 2 (Zpos p)). nia. }
  apply stock_sign.
  match goal with
  | |- match ?f with _ => _ end =>
      pose proof (binary_round_aux_sign false q
                    ltac:(match f with binary_round_aux _ _ _ _ ?e _ => exact e end)
                    ltac:(match f with binary_round_aux _ _ _ _ _ ?l => exact l end))
        as H; destruct f; try apply H; try lia; try exact I
  end.
Qed.

Lemma line_amount_nonneg item :
  finite_line item -> Float.leb Float.zero (line_amount item) = true.
Proof.
  intros [Hv Hf]. unfold SaleItem.valid in Hv.
  apply andb_true_iff in Hv as [Hq Hp].
  now apply mul_nonneg.
Qed.

Lemma add_line_ok taxes acc item :
  (forall c t, taxes !! c = Some t -> positive_rate t) ->
  finite_line item ->
  locals_ok acc -> locals_ok (add_line taxes acc item).
Proof.
  intros Hrates Hitem (Hs & Ht & Hb).
  pose proof (line_amount_nonneg item Hitem) as Ha.
  fold (line_amount item) in *.
  unfold add_line. fold (line_amount item).
  destruct (taxed taxes item) as [[c t]|] eqn:E; unfold locals_ok; simpl.
  - apply taxed_Some in E as (_ & _ & Hl).
    destruct (Hrates c t Hl) as [Hpos Hfin].
    assert (Htax : Float.leb Float.zero
                     (Float.mul (line_amount item) (TaxRate.rate t)) = true)
      by now apply mul_nonneg_r.
    split; [now apply add_nonneg|]. split; [now apply add_nonneg|].
    intros c' v. rewrite dict_lookup_set.
    destruct (String.eqb c c'); [|apply Hb].
    intros [= <-]. apply add_nonneg; [|exact Htax].
    rewrite dict_get_lookup.
    destruct (dict_lookup (l_tax_breakdown acc) c) as [v0|] eqn:L;
      [now apply (Hb c)|reflexivity].
  - split; [now apply add_nonneg|]. split; assumption.
Qed.

Lemma fold_add_line_ok taxes items : forall acc,
  (forall c t, taxes !! c = Some t -> positive_rate t) ->
  Forall finite_line items ->
  locals_ok acc -> locals_ok (fold_left (add_line taxes) items acc).
Proof.
  induction items as [|item items IH]; intros acc Hrates Hitems Hacc.
  - exact Hacc.
  - inversion Hitems as [|? ? Hitem Hrest]; subst. simpl.
    apply IH; [exact Hrates|exact Hrest|]. now apply add_line_ok.
Qed.

(** X18. When every line passes the schema ([qty > 0], [unit_price >= 0])
    with a finite quantity, and every stored rate is positive and finite, a
    committed sale records a subtotal, a tax total, a total and breakdown
    values that are all [>= 0.0]: none is negative and none is NaN. *)
Theorem recorded_totals_are_not_negative (s : Sale.t) (db : DB) :
  Forall (known (product db)) (Sale.items s) ->
  Forall finite_line (Sale.items s) ->
  Forall positive_rate (map body (taxrate db)) ->
  exists rec bd,
    sale (create_sale s db).2 = sale db ++ [mkDoc (next_id db) rec]
    /\ Sale.tax_breakdown rec = Some bd
    /\ Float.leb Float.zero (Sale.subtotal rec) = true
    /\ Float.leb Float.zero (Sale.tax_total rec) = true
    /\ Float.leb Float.zero (Sale.total rec) = true
    /\ forall c v, dict_lookup bd c = Some v -> Float.leb Float.zero v = true.
Proof.
  intros Hall Hitems Hrates. rewrite (create_sale_known _ _ Hall). simpl.
  eexists. eexists. split; [reflexivity|]. split; [reflexivity|].
  assert (Hok : locals_ok (aggregate (taxes_of db) (Sale.items s))).
  { apply fold_add_line_ok; [|exact Hitems|].
    - intros c t Hl. apply tax_map_lookup_elem in Hl as [Hin _].
      rewrite Forall_forall in Hrates. now apply Hrates.
    - repeat split. intros c v. discriminate. }
  destruct Hok as (Hs & Ht & Hb).
  split; [now apply round3_nonneg|]. split; [now apply round3_nonneg|].
  split; [apply round3_nonneg; now apply add_nonneg|].
  intros c v. rewrite dict_lookup_map.
  destruct (dict_lookup (l_tax_breakdown (aggregate (taxes_of db) (Sale.items s))) c)
    as [v0|] eqn:L; [|discriminate].
  simpl. intros [= <-]. apply round3_nonneg. now apply (Hb c).
Qed.

Lemma recorded_totals_are_not_negative_witness :
  let s := Examples.milk_and_bread in
  let db := Examples.seeded_db in
  Forall (known (product db)) (Sale.items s)
  /\ Forall finite_line (Sale.items s)
  /\ Forall positive_rate (map body (taxrate db))
  /\ exists rec bd,
       sale (create_sale s db).2 = sale db ++ [mkDoc (next_id db) rec]
       /\ Sale.tax_breakdown rec = Some bd
       /\ Float.leb Float.zero (Sale.subtotal rec) = true
       /\ Float.leb Float.zero (Sale.tax_total rec) = true
       /\ Float.leb Float.zero (Sale.total rec) = true
       /\ forall c v, dict_lookup bd c = Some v -> Float.leb Float.zero v = true.
Proof.
  intros s db.
  assert (H1 : Forall (known (product db)) (Sale.items s)).
  { apply seeded_all_known. vm_compute. reflexivity. }
  assert (H2 : Forall finite_line (Sale.items s)).
  { repeat constructor. }
  assert (H3 : Forall positive_rate (map body (taxrate db))).
  { repeat constructor. }
  split; [exact H1|]. split; [exact H2|]. split; [exact H3|].
  exact (recorded_totals_are_not_negative s db H1 H2 H3).
Defined.

Lemma committed_sale_takes_quantities_off_witness :
  let s := Examples.two_codes in
  let db := Examples.seeded_db in
  Forall (known (product db)) (Sale.items s)
  /\ NoDup (map _id (product db))
  /\ exists r,
       (create_sale s db).1 = Ok r
       /\ product (create_sale s db).2
          = map (fun d => take_all (sold_to (product db) (_id d) (Sale.items s)) d)
                (product db)
       /\ stocks (product (create_sale s db).2)
          = map (fun d =>
                   fold_left (fun st q => Float.add st (Float.neg q))
                     (sold_to (product db) (_id d) (Sale.items s))
                     (Product.stock (body d)))
                (product db).
Proof.
  intros s db.
  assert (H1 : Forall (known (product db)) (Sale.items s)).
  { apply seeded_all_known. vm_compute. reflexivity. }
  assert (H2 : NoDup (map _id (product db))).
  { apply (bool_decide_unpack _). vm_compute. exact I. }
  split; [exact H1|]. split; [exact H2|].
  exact (committed_sale_takes_quantities_off s db H1 H2).
Defined.

(** ** Requests in sequence *)

(** X19. A refused request sent again is refused again, with the same
    error, and again without a record; but the lines before its first
    unknown SKU have their quantities taken off a second time. *)
Theorem refused_sale_sent_again_decrements_again
    (s : Sale.t) (db : DB) (pre post : list SaleItem.t) (bad : SaleItem.t) :
  Sale.items s = pre ++ bad :: post ->
  Forall (known (product db)) pre ->
  find_one_sku (SaleItem.sku bad) (product db) = None ->
  let db1 := (create_sale s db).2 in
  let db2 := (create_sale s db1).2 in
  (create_sale s db).1 = Raise (unknown_sku bad)
  /\ (create_sale s db1).1 = Raise (unknown_sku bad)
  /\ sale db2 = sale db
  /\ product db1 = stock_after pre (product db)
  /\ product db2 = stock_after (pre ++ pre) (product db).
Proof.
  intros E Hpre Hbad db1 db2. subst db1 db2.
  rewrite (create_sale_unknown s db pre bad post E Hpre Hbad). cbn [fst snd].
  assert (Hpre' : Forall (known (product (set_product db
                     (stock_after pre (product db))))) pre).
  { simpl. eapply Forall_impl; [exact Hpre|].
    intros item H. now apply known_stock_after. }
  assert (Hbad' : find_one_sku (SaleItem.sku bad)
                    (product (set_product db (stock_after pre (product db))))
                  = None).
  { simpl. pose proof (find_one_sku_stock_after (SaleItem.sku bad) pre (product db)) as H.
    rewrite Hbad in H.
    destruct (find_one_sku (SaleItem.sku bad) (stock_after pre (product db)));
      [discriminate|reflexivity]. }
  rewrite (create_sale_unknown s _ pre bad post E Hpre' Hbad'). simpl.
  repeat split; try reflexivity. now rewrite stock_after_app.
Qed.

Lemma refused_sale_sent_again_decrements_again_witness :
  let s := Examples.with_unknown in
  let db := Examples.seeded_db in
  let pre := [Examples.line "MILK-1L" (Float.of_Z 2) (Float.lit 5 2) (Some "TVA7")] in
  let bad := Examples.line "FOO-1" (Float.of_Z 1) (Float.of_Z 1) None in
  let post := [Examples.line "BREAD-STD" (Float.of_Z 1) (Float.lit 6 10)
                 (Some "TVA7")] in
  Sale.items s = pre ++ bad :: post
  /\ Forall (known (product db)) pre
  /\ find_one_sku (SaleItem.sku bad) (product db) = None
  /\ let db1 := (create_sale s db).2 in
     let db2 := (create_sale s db1).2 in
     (create_sale s db).1 = Raise (unknown_sku bad)
     /\ (create_sale s db1).1 = Raise (unknown_sku bad)
     /\ sale db2 = sale db
     /\ product db1 = stock_after pre (product db)
     /\ product db2 = stock_after (pre ++ pre) (product db).
Proof.
  intros s db pre bad post.
  assert (H1 : Sale.items s = pre ++ bad :: post) by reflexivity.
  assert (H2 : Forall (known (product db)) pre).
  { apply seeded_all_known. vm_compute. reflexivity. }
  assert (H3 : find_one_sku (SaleItem.sku bad) (product db) = None)
    by (vm_compute; reflexivity).
  split; [exact H1|]. split; [exact H2|]. split; [exact H3|].
  exact (refused_sale_sent_again_decrements_again s db pre post bad H1 H2 H3).
Defined.

Lemma update_one_inc_last id delta (c : list (Doc Product.t)) p :
  id ∉ map _id c ->
  update_one_inc id delta (c ++ [mkDoc id p])
  = c ++ [mkDoc id (Product.inc_stock delta p)].
Proof.
  induction c as [|d c IH]; intros H; simpl.
  - now rewrite Nat.eqb_refl.
  - simpl in H. apply not_elem_of_cons in H as [Hne Hc].
    destruct (Nat.eqb (_id d) id) eqn:E.
    + apply Nat.eqb_eq in E. congruence.
    + now rewrite IH.
Qed.

(** X20. A product that [create_product] has just stored can be sold at
    once: on a store whose product identifiers are below the counter, a
    one-line request for its SKU is committed and takes the line's quantity
    off the stock the product was created with, whatever that stock is, and
    leaves every other product as it was. *)
Theorem created_product_can_be_sold
    (p : Product.t) (db : DB) (s : Sale.t) (item : SaleItem.t) :
  find_one_sku (Product.sku p) (product db) = None ->
  Forall (fun d => (_id d < next_id db)%nat) (product db) ->
  Sale.items s = [item] ->
  SaleItem.sku item = Product.sku p ->
  let db1 := (create_product p db).2 in
  exists r,
    (create_sale s db1).1 = Ok r
    /\ product (create_sale s db1).2
       = product db
         ++ [mkDoc (next_id db)
               (Product.inc_stock (Float.neg (SaleItem.qty item)) p)].
Proof.
  intros Hfresh Hlt Hitems Hsku db1. subst db1.
  rewrite (create_product_fresh _ _ Hfresh). cbn [snd].
  set (db1 := mkDB _ _ _ _).
  assert (Hfind : find_one_sku (SaleItem.sku item) (product db1)
                  = Some (mkDoc (next_id db) p)).
  { subst db1. cbn [product]. rewrite Hsku, find_one_sku_app, Hfresh.
    unfold find_one_sku. simpl. now rewrite String.eqb_refl. }
  assert (Hall : Forall (known (product db1)) (Sale.items s)).
  { rewrite Hitems. repeat constructor. unfold known. rewrite Hfind.
    discriminate. }
  rewrite (create_sale_known _ _ Hall). cbn [fst snd committed product].
  eexists. split; [reflexivity|].
  rewrite Hitems. unfold stock_after. cbn [fold_left]. unfold reduce_stock.
  rewrite Hfind. subst db1. cbn [product _id].
  apply update_one_inc_last.
  intros Hin. apply list_elem_of_fmap in Hin as (d & Hid & Hd).
  rewrite Forall_forall in Hlt. specialize (Hlt d Hd). lia.
Qed.

Lemma created_product_can_be_sold_witness :
  let p := Examples.bread in
  let db := Examples.untaxed_db in
  let item := Examples.line "BREAD-STD" (Float.of_Z 3) (Float.lit 6 10) None in
  let s := Examples.request [item] in
  find_one_sku (Product.sku p) (product db) = None
  /\ Forall (fun d => (_id d < next_id db)%nat) (product db)
  /\ Sale.items s = [item]
  /\ SaleItem.sku item = Product.sku p
  /\ let db1 := (create_product p db).2 in
     exists r,
       (create_sale s db1).1 = Ok r
       /\ product (create_sale s db1).2
          = product db
            ++ [mkDoc (next_id db)
                  (Product.inc_stock (Float.neg (SaleItem.qty item)) p)].
Proof.
  intros p db item s.
  assert (H1 : find_one_sku (Product.sku p) (product db) = None)
    by (vm_compute; reflexivity).
  assert (H2 : Forall (fun d => (_id d < next_id db)%nat) (product db)).
  { apply (bool_decide_unpack _). vm_compute. exact I. }
  assert (H3 : Sale.items s = [item]) by reflexivity.
  assert (H4 : SaleItem.sku item = Product.sku p) by reflexivity.
  split; [exact H1|]. split; [exact H2|]. split; [exact H3|]. split; [exact H4|].
  exact (created_product_can_be_sold p db s item H1 H2 H3 H4).
Defined.

(** ** The tax rates and users of a reachable store *)

Lemma missing_defaults_of_none db :
  taxrate db = [] -> missing_defaults db = defaults.
Proof. unfold missing_defaults, taxes_of. intros ->. reflexivity. Qed.

Lemma missing_defaults_of_defaults db :
  map body (taxrate db) = defaults -> missing_defaults db = [].
Proof. unfold missing_defaults, taxes_of. intros ->. reflexivity. Qed.

Lemma ensure_default_taxes_table db :
  map body (taxrate db) = [] \/ map body (taxrate db) = defaults ->
  map body (taxrate (ensure_default_taxes db).2) = defaults.
Proof.
  intros H. rewrite ensure_default_taxes_run. cbn [snd taxrate].
  rewrite map_app, map_body_number_from. destruct H as [H|H].
  - rewrite H. apply map_eq_nil in H. now rewrite (missing_defaults_of_none _ H).
  - now rewrite (missing_defaults_of_defaults _ H), H, app_nil_r.
Qed.

(** X21. No request adds a tax rate or a user of its own: in every store
    that requests can lead to from the empty one, the tax rates are either
    none or exactly the three defaults, in their order, and the users are
    either none or the one demo user. *)
Theorem reachable_stores_hold_only_seeded_rates (st : Store) :
  reachable st ->
  (map body (taxrate (core st)) = [] \/ map body (taxrate (core st)) = defaults)
  /\ (map body (user st) = [] \/ map body (user st) = [demo_user]).
Proof.
  induction 1 as [|st st' Hr [IHt IHu] Hstep].
  - split; left; reflexivity.
  - destruct Hstep.
    + split.
      * rewrite core_lift.
        destruct (find_one_sku (Product.sku p) (product (core st))) eqn:E.
        -- rewrite create_product_taken by congruence. exact IHt.
        -- rewrite (create_product_fresh _ _ E). exact IHt.
      * unfold lift. destruct (create_product p (core st)). exact IHu.
    + split.
      * rewrite core_lift.
        destruct (create_sale_keeps_catalog s (core st)) as [_ ->]. exact IHt.
      * unfold lift. destruct (create_sale s (core st)). exact IHu.
    + split.
      * rewrite core_lift. destruct (list_taxes_run (core st)) as [_ ->].
        right. now apply ensure_default_taxes_table.
      * unfold lift. destruct (list_taxes (core st)). exact IHu.
    + pose proof (seed_demo_body_store st) as (_ & Ht & _ & _ & Hu1 & Hu2).
      cbn zeta in *. split.
      * right. rewrite Ht. now apply ensure_default_taxes_table.
      * destruct (user st) as [|u us] eqn:Eu.
        -- right. now apply Hu2.
        -- rewrite Hu1 by discriminate. exact IHu.
Qed.

Lemma reachable_stores_hold_only_seeded_rates_witness :
  let st := (seed_demo_body (lift (create_product Examples.milk) empty_store).2).2 in
  reachable st
  /\ (map body (taxrate (core st)) = [] \/ map body (taxrate (core st)) = defaults)
  /\ (map body (user st) = [] \/ map body (user st) = [demo_user]).
Proof.
  intros st.
  assert (H : reachable st).
  { apply (reachable_step (lift (create_product Examples.milk) empty_store).2).
    - apply (reachable_step empty_store).
      + apply reachable_empty.
      + apply step_create_product.
    - apply step_seed_demo. }
  split; [exact H|].
  exact (reachable_stores_hold_only_seeded_rates st H).
Defined.
